(** * plexapi.server: the PlexServer request pipeline

    A shallow embedding of [src/plexapi/server.py]: building the
    authenticated url, merging the headers, sending the request,
    classifying the status code, parsing the body, and the facade
    methods built on [query] ([_connect], [__init__], [library],
    [clients], [client], [account]), the url helper [transcodeImage],
    and the two methods that work on a listing ([playlist], [search]).

    Python objects that the code shares and mutates (the module-level
    [BASE_HEADERS] dict, the [PlexServer] instances with their cached
    [_library], the [Library] instances) live in an explicit store, the
    [World]; methods are computations in a state-and-exception monad
    over it.  The calls to [log] and [logfilter] write to the logging
    sink only; no method result depends on them and they are left out
    of the store. *)

From Stdlib Require Import ZArith Lia Ascii.
Set Warnings "-register-all".
From stdpp Require Import base strings gmap list pretty.

(** ** Python values used by the module *)

Module Py.

(** [str] is a sequence of code points; the model covers the code
    points below 256, one [ascii] each.  [bytes] is a sequence of
    octets, also one [ascii] each. *)
Definition str := string.
Definition bytes := string.

(** [needle in hay] on strings. *)
Fixpoint contains (needle hay : string) : bool :=
  String.prefix needle hay ||
  match hay with
  | EmptyString => false
  | String _ rest => contains needle rest
  end.

(** Truth value of an optional string ([None] and [''] are false). *)
Definition truthy (o : option string) : bool :=
  match o with
  | Some (String _ _) => true
  | _ => false
  end.

(** Truth value of an optional dict ([None] and [{}] are false). *)
Definition truthy_dict (o : option (gmap string string)) : bool :=
  match o with
  | Some d => negb (bool_decide (d = ∅))
  | None => false
  end.

(** [a or b] on optional strings. *)
Definition or_else (a b : option string) : option string :=
  if truthy a then a else b.

(** ['%s' % x] for [x] a string or [None]. *)
Definition fmt (o : option string) : string :=
  match o with
  | Some s => s
  | None => "None"
  end.

(** [str.lower] on the code points below 256: A-Z and the accented
    capitals U+00C0..U+00DE (U+00D7, the multiplication sign, apart)
    move up by 32. *)
Definition lower_char (c : ascii) : ascii :=
  let n := N_of_ascii c in
  if ((65 <=? n) && (n <=? 90) ||
      (192 <=? n) && (n <=? 222) && negb (n =? 215))%N
  then ascii_of_N (n + 32) else c.

Fixpoint lower (s : string) : string :=
  match s with
  | EmptyString => EmptyString
  | String c rest => String (lower_char c) (lower rest)
  end.

(** [str.encode('utf8')] on the code points below 256: one octet
    below 128, two octets from 128 on. *)
Definition encode_char (c : ascii) : bytes :=
  let n := N_of_ascii c in
  if (n <? 128)%N then String c EmptyString
  else String (ascii_of_N (192 + n / 64))
         (String (ascii_of_N (128 + n mod 64)) EmptyString).

Fixpoint encode_utf8 (s : str) : bytes :=
  match s with
  | EmptyString => EmptyString
  | String c rest => encode_char c +:+ encode_utf8 rest
  end.

(** Truth value of a [bytes] object. *)
Definition nonempty (b : bytes) : bool :=
  match b with
  | EmptyString => false
  | String _ _ => true
  end.

End Py.

(** ** Exceptions *)

Inductive exn : Type :=
  | BadRequest (msg : string)          (* plexapi.exceptions *)
  | NotFound (msg : string)            (* plexapi.exceptions *)
  | TypeError                          (* None[0], iterating None *)
  | IndexError                         (* ()[0] *)
  | KeyError (key : string)            (* attrib['host'] *)
  | AttributeError                     (* None.lower(), None.attrib *)
  | ValueError                         (* int('abc') *)
  | ParseError                         (* ElementTree.fromstring *)
  | RequestException (what : string)   (* requests: Timeout, ConnectionError, ... *)
  | SystemError.                       (* a reference that is not in the store *)

Inductive outcome (A : Type) : Type :=
  | Return (a : A)
  | Raise (e : exn).
Arguments Return {A} a.
Arguments Raise {A} e.

(** ** Data *)

(** [xml.etree.ElementTree.Element]: tag, attributes, children. *)
Inductive Element : Type :=
  | Elem (tag : string) (attrib : gmap string string) (children : list Element).

Definition tag (e : Element) : string := let 'Elem t _ _ := e in t.
Definition attrib (e : Element) : gmap string string := let 'Elem _ a _ := e in a.
Definition children (e : Element) : list Element := let 'Elem _ _ c := e in c.

(** The fields of [requests.Response] the module can see. *)
Module Response.
Record t : Type := mk {
  status_code : Z;
  reason : string;      (* the reason phrase the server sent *)
  text : Py.str;
  url : string
}.
End Response.

(** What one call [method(url, headers=h, timeout=TIMEOUT, **kwargs)]
    hands to the transport. *)
Module Request.
Record t : Type := mk {
  method : string;
  url : string;
  headers : gmap string string;
  timeout : Z;
  kwargs : gmap string string
}.
End Request.

(** A bound method of a [requests.Session] ([session.get], [session.put],
    ...): its [__name__] and what the network answers to a request, given
    the requests sent before it. *)
Record Method : Type := {
  __name__ : string;
  answer : list Request.t -> Request.t -> outcome Response.t
}.

Definition loc := nat.

(** Attributes of a [PlexServer] instance.  Of [self.session] the module
    uses the [get] method only, and the record keeps that.  The
    attributes [__init__] has not assigned yet do not exist in Python;
    nothing reads them before they are assigned, and the record holds
    [None], [false] or [0] in their place until then. *)
Module Server.
Record t : Type := mk {
  baseurl : option string;
  token : option string;
  session_get : Method;
  friendlyName : option string;
  machineIdentifier : option string;
  myPlex : bool;
  myPlexMappingState : option string;
  myPlexSigninState : option string;
  myPlexSubscription : option string;
  myPlexUsername : option string;
  platform : option string;
  platformVersion : option string;
  transcoderActiveVideoSessions : Z;
  updatedAt : Z;
  version : option string;
  _library : option loc
}.

Definition fresh (b tok : option string) (g : Method) : t :=
  mk b tok g None None false None None None None None None 0 0 None None.

Definition set_library (s : t) (l : option loc) : t :=
  mk (baseurl s) (token s) (session_get s) (friendlyName s)
     (machineIdentifier s) (myPlex s) (myPlexMappingState s)
     (myPlexSigninState s) (myPlexSubscription s) (myPlexUsername s)
     (platform s) (platformVersion s) (transcoderActiveVideoSessions s)
     (updatedAt s) (version s) l.
End Server.

(** Modelled from the spec: class [Library] of plexapi/library.py, which
    is not among the sources.  The spec gives it the Connection and the
    response node ("each receives a ResponseNode (or the Connection)");
    an instance is an object of its own, true in a boolean context. *)
Module Library.
Record t : Type := mk {
  server : loc;
  data : option Element
}.
End Library.

(** Modelled from the spec: class [PlexClient] of plexapi/client.py, which
    is not among the sources: the client descriptor, holding the three
    arguments the server passes to its constructor. *)
Module PlexClient.
Record t : Type := mk {
  baseurl : string;
  server : loc;
  data : Element
}.
End PlexClient.

(** Attributes of an [Account] instance. *)
Module Account.
Record t : Type := mk {
  authToken : option string;
  username : option string;
  mappingState : option string;
  mappingError : option string;
  mappingErrorMessage : option string;
  signInState : option string;
  publicAddress : option string;
  publicPort : option string;
  privateAddress : option string;
  privatePort : option string;
  subscriptionFeatures : option string;
  subscriptionActive : option string;
  subscriptionState : option string
}.
End Account.

(** Modelled from the spec: the entities [utils.listItems] builds
    (plexapi/utils.py and the media classes are not among the sources).
    Of an item the server module reads [title] and [type]; [data] is the
    node the item was built from. *)
Module Item.
Record t : Type := mk {
  title : option string;
  type : option string;
  data : Element
}.
End Item.

(** ** The store *)

Record World : Type := mkWorld {
  BASE_HEADERS : gmap string string;   (* the dict object of plexapi/__init__.py *)
  dicts : list (gmap string string);   (* the dict objects made since, by reference *)
  servers : list Server.t;             (* PlexServer instances, by reference *)
  libraries : list Library.t;          (* Library instances, by reference *)
  sent : list Request.t                (* the calls a transport method was entered with, oldest first *)
}.

(** A reference to a dict object: the module-level [BASE_HEADERS], or
    one made later (by [dict.copy]). *)
Inductive dict_ref : Type :=
  | The_BASE_HEADERS
  | Dict_at (l : loc).

(** ** The monad of methods *)

Definition M (A : Type) : Type := World -> outcome A * World.

Definition ret {A} (a : A) : M A := fun w => (Return a, w).
Definition raise {A} (e : exn) : M A := fun w => (Raise e, w).
Definition bind {A B} (m : M A) (k : A -> M B) : M B :=
  fun w => match m w with
           | (Return a, w') => k a w'
           | (Raise e, w') => (Raise e, w')
           end.

(** [try: m except Exception as err: h err] *)
Definition try_except {A} (m : M A) (h : exn -> M A) : M A :=
  fun w => match m w with
           | (Return a, w') => (Return a, w')
           | (Raise e, w') => h e w'
           end.

Declare Scope py_scope.
Delimit Scope py_scope with py.
Notation "'let!' x ':=' m 'in' k" := (bind m (fun x => k))
  (at level 10, x name, m at level 100, k at level 200) : py_scope.
Notation "'do!' m 'in' k" := (bind m (fun _ => k))
  (at level 10, m at level 100, k at level 200) : py_scope.
Open Scope py_scope.

(** ** What the module imports from outside the repository's sources *)

Class Extern : Type := {
  codes : gmap Z (list string);             (* requests.status_codes._codes *)
  TIMEOUT : Z;                              (* plexapi.TIMEOUT *)
  CONFIG : gmap string string;              (* plexapi.CONFIG, read with CONFIG.get *)
  Session_get : Method;                     (* requests.Session().get *)
  fromstring : Py.bytes -> option Element;  (* ElementTree.fromstring; None: ParseError *)
  int_of_str : string -> option Z           (* int(s) for a string s; None: ValueError *)
}.

(** What the listing methods import: [utils.listItems(server, path)],
    any computation over the store that ends in a list of items or in an
    exception, and [compat.quote]. *)
Class Utils : Type := {
  listItems : loc -> string -> M (list Item.t);
  quote : string -> string
}.

(** ** Operations on the store *)

Definition deref (self : loc) : M Server.t :=
  fun w => match servers w !! self with
           | Some s => (Return s, w)
           | None => (Raise SystemError, w)
           end.

Definition store (self : loc) (s : Server.t) : M unit :=
  fun w => (Return tt,
            mkWorld (BASE_HEADERS w) (dicts w) (<[self := s]> (servers w))
                    (libraries w) (sent w)).

Definition new_server (s : Server.t) : M loc :=
  fun w => (Return (length (servers w)),
            mkWorld (BASE_HEADERS w) (dicts w) (servers w ++ [s])
                    (libraries w) (sent w)).

Definition dict_read (r : dict_ref) : M (gmap string string) :=
  fun w => match r with
           | The_BASE_HEADERS => (Return (BASE_HEADERS w), w)
           | Dict_at l => match dicts w !! l with
                          | Some d => (Return d, w)
                          | None => (Raise SystemError, w)
                          end
           end.

Definition dict_write (r : dict_ref) (d : gmap string string) : M unit :=
  fun w => match r with
           | The_BASE_HEADERS =>
               (Return tt, mkWorld d (dicts w) (servers w) (libraries w) (sent w))
           | Dict_at l =>
               (Return tt, mkWorld (BASE_HEADERS w) (<[l := d]> (dicts w))
                                   (servers w) (libraries w) (sent w))
           end.

(** [r[k] = v] *)
Definition dict_setitem (r : dict_ref) (k v : string) : M unit :=
  let! d := dict_read r in dict_write r (<[k := v]> d).

(** [r.copy()]: a new dict object with the same items. *)
Definition dict_copy (r : dict_ref) : M dict_ref :=
  let! d := dict_read r in
  fun w => (Return (Dict_at (length (dicts w))),
            mkWorld (BASE_HEADERS w) (dicts w ++ [d]) (servers w)
                    (libraries w) (sent w)).

(** [r.update(other)]: the items of [other] win. *)
Definition dict_update (r : dict_ref) (other : gmap string string) : M unit :=
  let! d := dict_read r in dict_write r (other ∪ d).

(** Whether [kwargs] repeats a keyword that the call
    [method(url, headers=h, timeout=timeout, **kwargs)] spells out.
    ([query] binds a [headers=] of its caller to its own parameter, so
    of the two it is [timeout] that its [**kwargs] can hold.) *)
Definition collides (kwargs : gmap string string) : bool :=
  match kwargs !! "headers", kwargs !! "timeout" with
  | None, None => false
  | _, _ => true
  end.

(** [method(url, headers=h, timeout=timeout, **kwargs)].  A keyword
    given twice is a [TypeError] of the call itself: the method is not
    entered and nothing is sent.  What the method makes of the other
    keywords is part of its answer. *)
Definition call (m : Method) (url : string) (h : dict_ref) (timeout : Z)
    (kwargs : gmap string string) : M Response.t :=
  if collides kwargs then raise TypeError
  else
    let! hd := dict_read h in
    fun w => let rq := Request.mk (__name__ m) url hd timeout kwargs in
             (answer m (sent w) rq,
              mkWorld (BASE_HEADERS w) (dicts w) (servers w) (libraries w)
                      (sent w ++ [rq])).

(** [Library(server, data)] *)
Definition Library_new (server : loc) (data : option Element) : M loc :=
  fun w => (Return (length (libraries w)),
            mkWorld (BASE_HEADERS w) (dicts w) (servers w)
                    (libraries w ++ [Library.mk server data]) (sent w)).

(** [for elem in o]: an [Element] iterates over its children, [None]
    is not iterable. *)
Definition iter (o : option Element) : M (list Element) :=
  match o with
  | Some e => ret (children e)
  | None => raise TypeError
  end.

(** [a[k]] on an attribute dict. *)
Definition getitem (a : gmap string string) (k : string) : M string :=
  match a !! k with
  | Some v => ret v
  | None => raise (KeyError k)
  end.

(** [t[0]] for [t = codes.get(status)]. *)
Definition first_name (t : option (list string)) : M string :=
  match t with
  | None => raise TypeError
  | Some [] => raise IndexError
  | Some (c :: _) => ret c
  end.

(** ** class Account *)

(** [def __init__(self, server, data)] of [Account] *)
Definition Account_init (server : loc) (data : option Element) : M Account.t :=
  match data with
  | None => raise AttributeError
  | Some d =>
      let a := attrib d in
      ret (Account.mk (a !! "authToken")
                      (a !! "username")
                      (a !! "mappingState")
                      (a !! "mappingError")
                      (a !! "mappingErrorMessage")
                      (a !! "signInState")
                      (a !! "publicAddress")
                      (a !! "publicPort")
                      (a !! "privateAddress")
                      (a !! "privatePort")
                      (a !! "subscriptionFeatures")
                      (a !! "subscriptionActive")
                      (a !! "subscriptionState"))
  end.

(** ** class PlexServer *)

Module PlexServer.

(** [def url(self, path)] *)
Definition url (self : loc) (path : string) : M string :=
  let! s := deref self in
  if Py.truthy (Server.token s) then
    let delim := if Py.contains "?" path then "&" else "?" in
    ret (Py.fmt (Server.baseurl s) +:+ path +:+ delim +:+ "X-Plex-Token="
         +:+ Py.fmt (Server.token s))
  else
    ret (Py.fmt (Server.baseurl s) +:+ path).

(** [def headers(self)] *)
Definition headers (self : loc) : M dict_ref :=
  let! s := deref self in
  let headers := The_BASE_HEADERS in
  do! (if Py.truthy (Server.token s)
       then dict_setitem headers "X-Plex-Token" (Py.fmt (Server.token s))
       else ret tt) in
  ret headers.

(** [def query(self, path, method=None, headers=None, **kwargs)] *)
Definition query `{Extern} (self : loc) (path : string) (method : option Method)
    (headers : option (gmap string string)) (kwargs : gmap string string)
    : M (option Element) :=
  let! url := url self path in
  let! s := deref self in
  let method := default (Server.session_get s) method in
  let! h := (let! r := PlexServer.headers self in dict_copy r) in
  do! (if Py.truthy_dict headers
       then dict_update h (default ∅ headers)
       else ret tt) in
  let! response := call method url h TIMEOUT kwargs in
  if negb (bool_decide (Response.status_code response ∈ [200; 201]%Z)) then
    let! codename := first_name (codes !! Response.status_code response) in
    raise (BadRequest ("(" +:+ pretty (Response.status_code response) +:+ ") "
                       +:+ codename +:+ " " +:+ Response.url response))
  else
    let data := Py.encode_utf8 (Response.text response) in
    if Py.nonempty data then
      match fromstring data with
      | Some e => ret (Some e)
      | None => raise ParseError
      end
    else ret None.

(** [def _connect(self)] *)
Definition _connect `{Extern} (self : loc) : M (option Element) :=
  try_except (query self "/" None None ∅)
    (fun err =>
       let! s := deref self in
       raise (NotFound ("No server found at: " +:+ Py.fmt (Server.baseurl s)))).

(** [int(attrib.get(key, 0))] *)
Definition int_attr `{Extern} (a : gmap string string) (key : string) : M Z :=
  match a !! key with
  | None => ret 0%Z
  | Some v => match int_of_str v with
              | Some z => ret z
              | None => raise ValueError
              end
  end.

(** [def __init__(self, baseurl, token, session)].  The attribute
    assignments after the handshake are stored in one step: the object
    is not reachable by anyone until [__init__] returns. *)
Definition __init__ `{Extern} (baseurl token : option string)
    (session : option Method) : M loc :=
  let baseurl := Py.or_else baseurl (CONFIG !! "authentication.baseurl") in
  let token := Py.or_else token (CONFIG !! "authentication.token") in
  let session := default Session_get session in
  let! self := new_server (Server.fresh baseurl token session) in
  let! data := _connect self in
  match data with
  | None => raise AttributeError
  | Some d =>
      let a := attrib d in
      let! sessions := int_attr a "transcoderActiveVideoSessions" in
      let! updated := int_attr a "updatedAt" in
      do! store self
            (Server.mk baseurl token session
               (a !! "friendlyName")
               (a !! "machineIdentifier")
               (Py.truthy (a !! "myPlex"))
               (a !! "myPlexMappingState")
               (a !! "myPlexSigninState")
               (a !! "myPlexSubscription")
               (a !! "myPlexUsername")
               (a !! "platform")
               (a !! "platformVersion")
               sessions
               updated
               (a !! "version")
               None) in
      ret self
  end.

(** [@property def library(self)] *)
Definition library `{Extern} (self : loc) : M (option loc) :=
  let! s := deref self in
  do! (if negb (bool_decide (is_Some (Server._library s))) then
         let! data := query self "/library/" None None ∅ in
         let! l := Library_new self data in
         let! s := deref self in
         store self (Server.set_library s (Some l))
       else ret tt) in
  let! s := deref self in
  ret (Server._library s).

(** ['http://%s:%s' % (elem.attrib['host'], elem.attrib['port'])] *)
Definition client_baseurl (elem : Element) : M string :=
  let! host := getitem (attrib elem) "host" in
  let! port := getitem (attrib elem) "port" in
  ret ("http://" +:+ host +:+ ":" +:+ port).

(** The loop of [clients], over the elements still to visit. *)
Fixpoint clients_loop (self : loc) (elems : list Element)
    (items : list PlexClient.t) : M (list PlexClient.t) :=
  match elems with
  | [] => ret items
  | elem :: rest =>
      let! baseurl := client_baseurl elem in
      clients_loop self rest (items ++ [PlexClient.mk baseurl self elem])
  end.

(** [def clients(self)] *)
Definition clients `{Extern} (self : loc) : M (list PlexClient.t) :=
  let items := [] in
  let! root := query self "/clients" None None ∅ in
  let! elems := iter root in
  clients_loop self elems items.

(** The loop of [client], over the elements still to visit. *)
Fixpoint client_loop (self : loc) (name : string) (elems : list Element)
    : M PlexClient.t :=
  match elems with
  | [] => raise (NotFound ("Unknown client name: " +:+ name))
  | elem :: rest =>
      match attrib elem !! "name" with
      | None => raise AttributeError
      | Some n =>
          if String.eqb (Py.lower n) (Py.lower name) then
            let! baseurl := client_baseurl elem in
            ret (PlexClient.mk baseurl self elem)
          else client_loop self name rest
      end
  end.

(** [def client(self, name)] *)
Definition client `{Extern} (self : loc) (name : string) : M PlexClient.t :=
  let! root := query self "/clients" None None ∅ in
  let! elems := iter root in
  client_loop self name elems.

(** [def account(self)] *)
Definition account `{Extern} (self : loc) : M Account.t :=
  let! data := query self "/myplex/account" None None ∅ in
  Account_init self data.

(** [def playlists(self)] *)
Definition playlists `{Utils} (self : loc) : M (list Item.t) :=
  listItems self "/playlists".

(** The loop of [playlist], over the items still to visit. *)
Fixpoint playlist_loop (title : string) (items : list Item.t) : M Item.t :=
  match items with
  | [] => raise (NotFound ("Invalid playlist title: " +:+ title))
  | item :: rest =>
      if bool_decide (Item.title item = Some title) then ret item
      else playlist_loop title rest
  end.

(** [def playlist(self, title)] *)
Definition playlist `{Utils} (self : loc) (title : string) : M Item.t :=
  let! items := playlists self in
  playlist_loop title items.

(** [def search(self, query, mediatype=None)] *)
Definition search `{Utils} (self : loc) (query : string)
    (mediatype : option string) : M (list Item.t) :=
  let! items := listItems self ("/search?query=" +:+ quote query) in
  if Py.truthy mediatype then
    ret (filter (λ item, Item.type item = mediatype) items)
  else ret items.

(** [def transcodeImage(self, media, height, width, opacity, saturation)];
    the function ends without a [return] when [media] is false, and the
    call is then [None]. *)
Definition transcodeImage (self : loc) (media : option string)
    (height width opacity saturation : Z) : M (option string) :=
  if Py.truthy media then
    let transcode_url :=
      "/photo/:/transcode?height=" +:+ pretty height
        +:+ "&width=" +:+ pretty width
        +:+ "&opacity=" +:+ pretty opacity
        +:+ "&saturation=" +:+ pretty saturation
        +:+ "&url=" +:+ Py.fmt media in
    let! u := url self transcode_url in
    ret (Some u)
  else ret None.

End PlexServer.

(** ** The pipeline in closed form

    What [query] computes, read off the store in one step: the url, the
    headers handed to the transport, the store after the call, and the
    classification of the response. *)

(** The string [url] returns for a server with attributes [s]. *)
Definition url_of (s : Server.t) (path : string) : string :=
  if Py.truthy (Server.token s) then
    Py.fmt (Server.baseurl s) +:+ path
      +:+ (if Py.contains "?" path then "&" else "?")
      +:+ "X-Plex-Token=" +:+ Py.fmt (Server.token s)
  else Py.fmt (Server.baseurl s) +:+ path.

(** [BASE_HEADERS] after [headers()] ran for a server with attributes [s]. *)
Definition base_after (s : Server.t) (base : gmap string string)
    : gmap string string :=
  if Py.truthy (Server.token s)
  then <["X-Plex-Token" := Py.fmt (Server.token s)]> base
  else base.

(** The dict [h] that [query] hands to the transport. *)
Definition sent_headers (s : Server.t) (base : gmap string string)
    (headers : option (gmap string string)) : gmap string string :=
  if Py.truthy_dict headers
  then default ∅ headers ∪ base_after s base
  else base_after s base.

(** The request [query] sends. *)
Definition request_of `{Extern} (s : Server.t) (base : gmap string string)
    (path : string) (method : option Method)
    (headers : option (gmap string string)) (kwargs : gmap string string)
    : Request.t :=
  Request.mk (__name__ (default (Server.session_get s) method))
             (url_of s path) (sent_headers s base headers) TIMEOUT kwargs.

(** What [query] makes of a response. *)
Definition classify `{Extern} (r : Response.t) : outcome (option Element) :=
  if negb (bool_decide (Response.status_code r ∈ [200; 201]%Z)) then
    match codes !! Response.status_code r with
    | None => Raise TypeError
    | Some [] => Raise IndexError
    | Some (c :: _) =>
        Raise (BadRequest ("(" +:+ pretty (Response.status_code r) +:+ ") "
                           +:+ c +:+ " " +:+ Response.url r))
    end
  else if Py.nonempty (Py.encode_utf8 (Response.text r)) then
    match fromstring (Py.encode_utf8 (Response.text r)) with
    | Some e => Return (Some e)
    | None => Raise ParseError
    end
  else Return None.

(** The store after [query] sent request [rq] for a server [s]. *)
Definition world_after (s : Server.t) (headers : option (gmap string string))
    (rq : Request.t) (w : World) : World :=
  mkWorld (base_after s (BASE_HEADERS w))
          (dicts w ++ [sent_headers s (BASE_HEADERS w) headers])
          (servers w) (libraries w) (sent w ++ [rq]).

(** The store after a [query] whose call of the method was refused for
    a keyword given twice: the headers were built, nothing was sent. *)
Definition world_refused (s : Server.t) (headers : option (gmap string string))
    (w : World) : World :=
  mkWorld (base_after s (BASE_HEADERS w))
          (dicts w ++ [sent_headers s (BASE_HEADERS w) headers])
          (servers w) (libraries w) (sent w).

(** ** Sample surroundings, for the worked examples *)

(** Four entries of the status table of the requests library. *)
Definition sample_codes : gmap Z (list string) :=
  list_to_map [(201, ["created"]); (401, ["unauthorized"]);
               (404, ["not_found"; "-o-"]);
               (503, ["service_unavailable"; "unavailable"])]%Z.

Definition root_xml : string :=
  "<MediaContainer friendlyName='den' version='1.3.2'/>".
Definition root_elem : Element :=
  Elem "MediaContainer"
       (list_to_map [("friendlyName", "den"); ("version", "1.3.2")]) [].

Definition bob_elem : Element :=
  Elem "Server"
       (list_to_map [("name", "BOB"); ("host", "10.0.0.5"); ("port", "32500")]) [].
Definition tv_elem : Element :=
  Elem "Server"
       (list_to_map [("name", "tv"); ("host", "10.0.0.7"); ("port", "32500")]) [].
Definition nohost_elem : Element :=
  Elem "Server" (list_to_map [("name", "tv"); ("port", "32500")]) [].

Definition clients_xml : string := "<MediaContainer><Server name='tv' host='10.0.0.7' port='32500'/><Server name='BOB' host='10.0.0.5' port='32500'/></MediaContainer>".
Definition clients_elem : Element := Elem "MediaContainer" ∅ [tv_elem; bob_elem].

Definition nohost_xml : string :=
  "<MediaContainer><Server name='tv' port='32500'/></MediaContainer>".
Definition nohost_root : Element := Elem "MediaContainer" ∅ [nohost_elem].

(** A stand-in for the XML parser: it knows the three documents above
    and rejects every other input. *)
Definition sample_fromstring (b : Py.bytes) : option Element :=
  if String.eqb b root_xml then Some root_elem
  else if String.eqb b clients_xml then Some clients_elem
  else if String.eqb b nohost_xml then Some nohost_root
  else None.

(** A stand-in for [int] on strings: unsigned decimal numerals. *)
Fixpoint digits (s : string) (acc : Z) : option Z :=
  match s with
  | EmptyString => Some acc
  | String c rest =>
      let n := Z.of_N (N_of_ascii c) in
      if ((48 <=? n) && (n <=? 57))%Z then digits rest (10 * acc + (n - 48))%Z
      else None
  end.
Definition sample_int (s : string) : option Z :=
  match s with
  | EmptyString => None
  | _ => digits s 0%Z
  end.

(** A transport that answers every request with the given status,
    reason phrase and body, and reports the request's url back. *)
Definition fixed_answer (name : string) (status : Z) (reason body : string)
    : Method :=
  {| __name__ := name;
     answer := fun _ rq =>
       Return (Response.mk status reason body (Request.url rq)) |}.

(** A transport that never gets through. *)
Definition unreachable : Method :=
  {| __name__ := "get";
     answer := fun _ _ => Raise (RequestException "ConnectTimeout") |}.

Definition sample_extern : Extern :=
  {| codes := sample_codes;
     TIMEOUT := 30;
     CONFIG := ∅;
     Session_get := unreachable;
     fromstring := sample_fromstring;
     int_of_str := sample_int |}.

(** A store holding one server with the given token and transport. *)
Definition one_server (token : option string) (get : Method) : World :=
  mkWorld (list_to_map [("X-Plex-Platform", "Linux")]) []
          [Server.fresh (Some "http://10.0.0.97:32400") token get] [] [].

(** ** The specification's wording, where the code is compared with it *)

(** The message the specification gives a bad status: the status, the
    reason phrase the server sent, the url. *)
Definition reason_message (r : Response.t) : string :=
  "(" +:+ pretty (Response.status_code r) +:+ ") " +:+ Response.reason r
      +:+ " " +:+ Response.url r.

(** UTF-8 read back, for the code points below 256: an octet below 128
    stands for itself; an octet [110xxxxx] followed by [10yyyyyy] stands
    for the code point [xxxxxyyyyyy] when that lies from 128 to 255;
    nothing else is accepted. *)
Fixpoint utf8_decode (b : Py.bytes) : option Py.str :=
  match b with
  | EmptyString => Some EmptyString
  | String c1 rest =>
      let n1 := N_of_ascii c1 in
      if (n1 <? 128)%N then String c1 <$> utf8_decode rest
      else if ((192 <=? n1) && (n1 <? 224))%N then
        match rest with
        | String c2 rest' =>
            let n2 := N_of_ascii c2 in
            let cp := ((n1 - 192) * 64 + (n2 - 128))%N in
            if ((128 <=? n2) && (n2 <? 192) && (128 <=? cp) && (cp <? 256))%N
            then String (ascii_of_N cp) <$> utf8_decode rest'
            else None
        | EmptyString => None
        end
      else None
  end.

(** The selection of the items of type [m] out of a listing, item by
    item: an item of the type is kept, any other is dropped, and the
    order stays. *)
Inductive kept_of_type (m : string) : list Item.t -> list Item.t -> Prop :=
  | kept_nil : kept_of_type m [] []
  | kept_keep (item : Item.t) (rest found : list Item.t) :
      Item.type item = Some m →
      kept_of_type m rest found →
      kept_of_type m (item :: rest) (item :: found)
  | kept_drop (item : Item.t) (rest found : list Item.t) :
      Item.type item ≠ Some m →
      kept_of_type m rest found →
      kept_of_type m (item :: rest) found.

(** Two characters that are the same letter, case apart: equal, or one
    a capital (A-Z, or U+00C0..U+00DE without U+00D7) and the other the
    character 32 places above it. *)
Definition is_capital (n : N) : bool :=
  ((65 <=? n) && (n <=? 90) || (192 <=? n) && (n <=? 222) && negb (n =? 215))%N.

Definition same_letter (c1 c2 : ascii) : bool :=
  let n1 := N_of_ascii c1 in
  let n2 := N_of_ascii c2 in
  ((n1 =? n2) || is_capital n1 && (n2 =? n1 + 32)
   || is_capital n2 && (n1 =? n2 + 32))%N.

(** Two strings that are equal, case apart: of the same length and the
    same letter at every place. *)
Fixpoint equal_ignoring_case (a b : string) : bool :=
  match a, b with
  | EmptyString, EmptyString => true
  | String c1 a', String c2 b' => same_letter c1 c2 && equal_ignoring_case a' b'
  | _, _ => false
  end.

(** ** Stores and requests of the worked examples *)

Definition get_404 : Method := fixed_answer "get" 404 "Not Found" "".
Definition get_299 : Method := fixed_answer "get" 299 "Odd" "".
Definition get_root : Method := fixed_answer "get" 200 "OK" root_xml.
Definition get_empty : Method := fixed_answer "get" 200 "OK" "".
Definition get_clients : Method := fixed_answer "get" 200 "OK" clients_xml.
Definition get_nohost : Method := fixed_answer "get" 200 "OK" nohost_xml.

Definition plain_server (token : option string) (get : Method) : Server.t :=
  Server.fresh (Some "http://10.0.0.97:32400") token get.


(** The base url [clients] and [client] give the descriptor of an entry:
    built from the entry's own [host] and [port]. *)
Definition address_of (elem : Element) : outcome string :=
  match attrib elem !! "host" with
  | None => Raise (KeyError "host")
  | Some host =>
      match attrib elem !! "port" with
      | None => Raise (KeyError "port")
      | Some port => Return ("http://" +:+ host +:+ ":" +:+ port)
      end
  end.

(** A store with two servers: one configured with a token, one without. *)
Definition two_servers : World :=
  mkWorld (list_to_map [("X-Plex-Platform", "Linux")]) []
          [plain_server (Some "SECRET") get_root; plain_server None get_clients]
          [] [].

(** Items and a listing function for the worked examples: two playlists
    under [/playlists], a movie and a track under any search path. *)
Definition item_of (title type : string) : Item.t :=
  Item.mk (Some title) (Some type)
          (Elem "Item" (list_to_map [("title", title); ("type", type)]) []).

Definition sample_listItems (self : loc) (path : string) : M (list Item.t) :=
  if String.eqb path "/playlists"
  then ret [item_of "Road trip" "playlist"; item_of "Dinner" "playlist"]
  else if String.prefix "/search?query=" path
  then ret [item_of "Alien" "movie"; item_of "Alien theme" "track";
            item_of "Aliens" "movie"]
  else raise (BadRequest ("(404) not_found " +:+ path)).

Definition sample_utils : Utils :=
  {| listItems := sample_listItems; quote := λ q, q |}.

Definition account_xml : string :=
  "<MyPlex username='someone@example.org' signInState='ok'/>".
Definition account_elem : Element :=
  Elem "MyPlex"
       (list_to_map [("username", "someone@example.org"); ("signInState", "ok")])
       [].
Definition bad_sessions_elem : Element :=
  Elem "MediaContainer"
       (list_to_map [("transcoderActiveVideoSessions", "many")]) [].
Definition noname_elem : Element :=
  Elem "Server" (list_to_map [("host", "10.0.0.9"); ("port", "32500")]) [].


Definition bad_sessions_xml : string :=
  "<MediaContainer transcoderActiveVideoSessions='many'/>".
Definition noname_xml : string := "<MediaContainer><Server host='10.0.0.9' port='32500'/><Server name='BOB' host='10.0.0.5' port='32500'/></MediaContainer>".
Definition noname_root : Element :=
  Elem "MediaContainer" ∅ [noname_elem; bob_elem].

(** The stand-in parser, with three more documents. *)
Definition more_fromstring (b : Py.bytes) : option Element :=
  if String.eqb b account_xml then Some account_elem
  else if String.eqb b bad_sessions_xml then Some bad_sessions_elem
  else if String.eqb b noname_xml then Some noname_root
  else sample_fromstring b.

Definition more_extern : Extern :=
  {| codes := sample_codes;
     TIMEOUT := 30;
     CONFIG := ∅;
     Session_get := unreachable;
     fromstring := more_fromstring;
     int_of_str := sample_int |}.

Definition get_account : Method := fixed_answer "get" 200 "OK" account_xml.
Definition get_bad_sessions : Method :=
  fixed_answer "get" 200 "OK" bad_sessions_xml.
Definition get_noname : Method := fixed_answer "get" 200 "OK" noname_xml.


(** What [int(attrib.get(key, 0))] comes to. *)
Definition read_int `{Extern} (a : gmap string string) (key : string)
    : outcome Z :=
  match a !! key with
  | None => Return 0%Z
  | Some v => match int_of_str v with
              | Some z => Return z
              | None => Raise ValueError
              end
  end.

(** The attributes [__init__] assigns from the root node [d]. *)
Definition root_fields (b t : option string) (g : Method) (d : Element)
    (sessions updated : Z) : Server.t :=
  Server.mk b t g
    (attrib d !! "friendlyName") (attrib d !! "machineIdentifier")
    (Py.truthy (attrib d !! "myPlex"))
    (attrib d !! "myPlexMappingState") (attrib d !! "myPlexSigninState")
    (attrib d !! "myPlexSubscription") (attrib d !! "myPlexUsername")
    (attrib d !! "platform") (attrib d !! "platformVersion")
    sessions updated (attrib d !! "version") None.


(** Surroundings whose parser reads every body as the node [root]. *)
Definition parsing_to (root : Element) : Extern :=
  {| codes := sample_codes;
     TIMEOUT := 30;
     CONFIG := ∅;
     Session_get := unreachable;
     fromstring := λ _, Some root;
     int_of_str := sample_int |}.

Definition get_body : Method := fixed_answer "get" 200 "OK" "<MediaContainer/>".
Definition noport_elem : Element :=
  Elem "Server" (list_to_map [("name", "tv"); ("host", "10.0.0.7")]) [].
Definition noport_root : Element := Elem "MediaContainer" ∅ [bob_elem; noport_elem].




(** A listing whose one entry has no name. *)
Definition nameless_root : Element := Elem "MediaContainer" ∅ [noname_elem].


(** * Properties *)

(** ** Strings *)

Lemma contains_app_r (n p h : string) :
  Py.contains n h = true → Py.contains n (p +:+ h) = true.
Proof.
  intros Hh. induction p as [|c p IH]; [done|].
  simpl. rewrite IH. apply orb_true_r.
Qed.

Lemma prefix_app (n t : string) : String.prefix n (n +:+ t) = true.
Proof.
  induction n as [|c n IH]; simpl.
  - by destruct t.
  - destruct (Ascii.ascii_dec c c); [done|congruence].
Qed.

Lemma prefix_inv (n h : string) :
  String.prefix n h = true → ∃ t, h = n +:+ t.
Proof.
  revert h. induction n as [|c n IH]; intros h Hp.
  - by exists h.
  - destruct h as [|d h]; simpl in Hp; [done|].
    destruct (Ascii.ascii_dec c d) as [->|]; [|done].
    destruct (IH _ Hp) as [t ->]. by exists t.
Qed.

Lemma contains_nil (n : string) :
  Py.contains n "" = String.prefix n "" || false.
Proof. reflexivity. Qed.

Lemma contains_cons (n : string) c h :
  Py.contains n (String c h) = String.prefix n (String c h) || Py.contains n h.
Proof. reflexivity. Qed.

Lemma contains_spec (n h : string) :
  Py.contains n h = true ↔ ∃ pre post, h = pre +:+ n +:+ post.
Proof.
  split.
  - induction h as [|c h IH]; intros Hc.
    + rewrite contains_nil, orb_false_r in Hc.
      destruct (prefix_inv _ _ Hc) as [t Ht]. by exists "", t.
    + rewrite contains_cons in Hc. apply orb_true_iff in Hc as [Hc|Hc].
      * destruct (prefix_inv _ _ Hc) as [t Ht]. by exists "", t.
      * destruct (IH Hc) as (pre & post & ->). by exists (String c pre), post.
  - intros (pre & post & ->). apply contains_app_r.
    destruct (n +:+ post) eqn:E.
    + rewrite contains_nil, <- E, prefix_app. done.
    + rewrite contains_cons, <- E, prefix_app. done.
Qed.




Lemma bind_Return {A B} (m : M A) (k : A → M B) w a w' :
  m w = (Return a, w') → bind m k w = k a w'.
Proof. unfold bind. by intros ->. Qed.

Lemma bind_Raise {A B} (m : M A) (k : A → M B) w e w' :
  m w = (Raise e, w') → bind m k w = (Raise e, w').
Proof. unfold bind. by intros ->. Qed.

Lemma deref_run w self s :
  servers w !! self = Some s → deref self w = (Return s, w).
Proof. unfold deref. by intros ->. Qed.

Lemma url_run w self s path :
  servers w !! self = Some s →
  PlexServer.url self path w = (Return (url_of s path), w).
Proof.
  intros Hs. unfold PlexServer.url.
  rewrite (bind_Return _ _ _ _ _ (deref_run _ _ _ Hs)).
  unfold url_of. by destruct (Py.truthy (Server.token s)).
Qed.

Lemma headers_run w self s :
  servers w !! self = Some s →
  PlexServer.headers self w =
    (Return The_BASE_HEADERS,
     mkWorld (base_after s (BASE_HEADERS w)) (dicts w) (servers w)
             (libraries w) (sent w)).
Proof.
  intros Hs. unfold PlexServer.headers.
  rewrite (bind_Return _ _ _ _ _ (deref_run _ _ _ Hs)).
  unfold base_after. destruct (Py.truthy (Server.token s)); [done|].
  by destruct w.
Qed.


Lemma headers_copy_run w self s :
  servers w !! self = Some s →
  bind (PlexServer.headers self) dict_copy w =
    (Return (Dict_at (length (dicts w))),
     mkWorld (base_after s (BASE_HEADERS w))
             (dicts w ++ [base_after s (BASE_HEADERS w)]) (servers w)
             (libraries w) (sent w)).
Proof.
  intros Hs. by rewrite (bind_Return _ _ _ _ _ (headers_run _ _ _ Hs)).
Qed.

Lemma dict_update_last b ds d other sv ls rs :
  dict_update (Dict_at (length ds)) other (mkWorld b (ds ++ [d]) sv ls rs) =
    (Return tt, mkWorld b (ds ++ [other ∪ d]) sv ls rs).
Proof.
  unfold dict_update, dict_read, dict_write, bind. simpl.
  rewrite lookup_app_r, Nat.sub_diag by done. simpl.
  rewrite insert_app_r_alt, Nat.sub_diag by done. done.
Qed.

Lemma collides_empty : collides ∅ = false.
Proof. reflexivity. Qed.

Lemma call_last m u b ds d sv ls rs timeout kwargs :
  collides kwargs = false →
  call m u (Dict_at (length ds)) timeout kwargs (mkWorld b (ds ++ [d]) sv ls rs) =
    (answer m rs (Request.mk (__name__ m) u d timeout kwargs),
     mkWorld b (ds ++ [d]) sv ls
             (rs ++ [Request.mk (__name__ m) u d timeout kwargs])).
Proof.
  intros Hk. unfold call. rewrite Hk. unfold dict_read, bind. simpl.
  rewrite lookup_app_r, Nat.sub_diag by done. done.
Qed.

Lemma call_refused m u h timeout kwargs w :
  collides kwargs = true →
  call m u h timeout kwargs w = (Raise TypeError, w).
Proof. intros Hk. unfold call. by rewrite Hk. Qed.

Lemma classify_run `{Extern} (r : Response.t) w :
  (if negb (bool_decide (Response.status_code r ∈ [200; 201]%Z)) then
     let! codename := first_name (codes !! Response.status_code r) in
     raise (BadRequest ("(" +:+ pretty (Response.status_code r) +:+ ") "
                        +:+ codename +:+ " " +:+ Response.url r))
   else
     let data := Py.encode_utf8 (Response.text r) in
     if Py.nonempty data then
       match fromstring data with
       | Some e => ret (Some e)
       | None => raise ParseError
       end
     else ret None) w = (classify r, w).
Proof.
  unfold classify.
  destruct (negb (bool_decide (Response.status_code r ∈ [200; 201]%Z))).
  - unfold bind, first_name, raise, ret.
    by destruct (codes !! Response.status_code r) as [[|c l]|].
  - simpl. destruct (Py.nonempty _); [|done].
    by destruct (fromstring _).
Qed.

Lemma query_run `{Extern} w self s path method headers kwargs :
  servers w !! self = Some s →
  collides kwargs = false →
  PlexServer.query self path method headers kwargs w =
    (match answer (default (Server.session_get s) method) (sent w)
             (request_of s (BASE_HEADERS w) path method headers kwargs) with
     | Return r => classify r
     | Raise e => Raise e
     end,
     world_after s headers
       (request_of s (BASE_HEADERS w) path method headers kwargs) w).
Proof.
  intros Hs Hk. unfold PlexServer.query.
  rewrite (bind_Return _ _ _ _ _ (url_run _ _ _ path Hs)).
  rewrite (bind_Return _ _ _ _ _ (deref_run _ _ _ Hs)).
  rewrite (bind_Return _ _ _ _ _ (headers_copy_run _ _ _ Hs)).
  unfold request_of, world_after, sent_headers.
  set (b := base_after s (BASE_HEADERS w)).
  set (m := default (Server.session_get s) method).
  assert (Hcall : ∀ d (K : Response.t → M (option Element)),
    bind (call m (url_of s path) (Dict_at (length (dicts w))) TIMEOUT kwargs) K
      (mkWorld b (dicts w ++ [d]) (servers w) (libraries w) (sent w)) =
    match answer m (sent w) (Request.mk (__name__ m) (url_of s path) d TIMEOUT kwargs) with
    | Return r => K r (mkWorld b (dicts w ++ [d]) (servers w) (libraries w)
                 (sent w ++ [Request.mk (__name__ m) (url_of s path) d TIMEOUT kwargs]))
    | Raise e => (Raise e, mkWorld b (dicts w ++ [d]) (servers w) (libraries w)
                 (sent w ++ [Request.mk (__name__ m) (url_of s path) d TIMEOUT kwargs]))
    end).
  { intros d K. unfold bind at 1. rewrite (call_last _ _ _ _ _ _ _ _ _ _ Hk).
    by destruct (answer _ _ _). }
  destruct (Py.truthy_dict headers) eqn:Hh.
  - rewrite (bind_Return _ _ _ _ _ (dict_update_last _ _ _ _ _ _ _)).
    rewrite Hcall. destruct (answer _ _ _); [|done]. apply classify_run.
  - rewrite (bind_Return _ _ _ tt _ eq_refl).
    rewrite Hcall. destruct (answer _ _ _); [|done]. apply classify_run.
Qed.

Lemma query_run_plain `{Extern} w self s path method headers :
  servers w !! self = Some s →
  PlexServer.query self path method headers ∅ w =
    (match answer (default (Server.session_get s) method) (sent w)
             (request_of s (BASE_HEADERS w) path method headers ∅) with
     | Return r => classify r
     | Raise e => Raise e
     end,
     world_after s headers
       (request_of s (BASE_HEADERS w) path method headers ∅) w).
Proof. intros Hs. apply (query_run _ _ _ _ _ _ _ Hs collides_empty). Qed.

Lemma query_refused `{Extern} w self s path method headers kwargs :
  servers w !! self = Some s →
  collides kwargs = true →
  PlexServer.query self path method headers kwargs w =
    (Raise TypeError, world_refused s headers w).
Proof.
  intros Hs Hk. unfold PlexServer.query.
  rewrite (bind_Return _ _ _ _ _ (url_run _ _ _ path Hs)).
  rewrite (bind_Return _ _ _ _ _ (deref_run _ _ _ Hs)).
  rewrite (bind_Return _ _ _ _ _ (headers_copy_run _ _ _ Hs)).
  unfold world_refused, sent_headers.
  destruct (Py.truthy_dict headers) eqn:Hh.
  - rewrite (bind_Return _ _ _ _ _ (dict_update_last _ _ _ _ _ _ _)).
    apply bind_Raise, call_refused, Hk.
  - rewrite (bind_Return _ _ _ tt _ eq_refl).
    apply bind_Raise, call_refused, Hk.
Qed.

Lemma truthy_Some (t : string) : t ≠ "" → Py.truthy (Some t) = true.
Proof. by destruct t. Qed.

Lemma truthy_false (o : option string) :
  Py.truthy o = false ↔ o = None ∨ o = Some "".
Proof.
  destruct o as [[|c t]|]; simpl; split; intros Hx; try done; auto.
  destruct Hx as [Hx|Hx]; discriminate Hx.
Qed.

(** C2.  [url(path)] with a token configured is baseurl + path, then
    the separator, then [X-Plex-Token=<token>]: the separator is [&]
    when the path holds a [?] somewhere and [?] when it holds none;
    with no token ([None] or the empty string) it is baseurl + path and
    nothing more.  The store is left as it was. *)
Theorem url_token_separator (w : World) (self : loc) (s : Server.t)
    (b path : string) :
  servers w !! self = Some s →
  Server.baseurl s = Some b →
  (∀ t, Server.token s = Some t → t ≠ "" →
        (∃ pre post, path = pre +:+ "?" +:+ post) →
        PlexServer.url self path w =
          (Return (b +:+ path +:+ "&" +:+ "X-Plex-Token=" +:+ t), w))
  ∧ (∀ t, Server.token s = Some t → t ≠ "" →
        ¬ (∃ pre post, path = pre +:+ "?" +:+ post) →
        PlexServer.url self path w =
          (Return (b +:+ path +:+ "?" +:+ "X-Plex-Token=" +:+ t), w))
  ∧ (Server.token s = None ∨ Server.token s = Some "" →
        PlexServer.url self path w = (Return (b +:+ path), w)).
Proof.
  intros Hs Hb. rewrite (url_run _ _ _ path Hs). unfold url_of. rewrite Hb.
  split; [|split].
  - intros t Ht Hne Hq. rewrite Ht, (truthy_Some _ Hne).
    apply contains_spec in Hq. by rewrite Hq.
  - intros t Ht Hne Hq. rewrite Ht, (truthy_Some _ Hne).
    destruct (Py.contains "?" path) eqn:Hc; [|done].
    by apply contains_spec in Hc.
  - intros Hn. apply truthy_false in Hn. by rewrite Hn.
Qed.

Lemma url_token_separator_witness :
  PlexServer.url 0 "/search?query=HELLO"
      (one_server (Some "12345") unreachable) =
    (Return "http://10.0.0.97:32400/search?query=HELLO&X-Plex-Token=12345",
     one_server (Some "12345") unreachable)
  ∧ PlexServer.url 0 "/clients" (one_server (Some "12345") unreachable) =
    (Return "http://10.0.0.97:32400/clients?X-Plex-Token=12345",
     one_server (Some "12345") unreachable)
  ∧ PlexServer.url 0 "/clients" (one_server None unreachable) =
    (Return "http://10.0.0.97:32400/clients", one_server None unreachable).
Proof.
  split; [|split].
  - apply (proj1 (url_token_separator (one_server (Some "12345") unreachable) 0
             (Server.fresh (Some "http://10.0.0.97:32400") (Some "12345") unreachable)
             "http://10.0.0.97:32400" "/search?query=HELLO" eq_refl eq_refl)
             "12345" eq_refl).
    + discriminate.
    + by exists "/search", "query=HELLO".
  - apply (proj1 (proj2 (url_token_separator (one_server (Some "12345") unreachable) 0
             (Server.fresh (Some "http://10.0.0.97:32400") (Some "12345") unreachable)
             "http://10.0.0.97:32400" "/clients" eq_refl eq_refl))
             "12345" eq_refl).
    + discriminate.
    + intros Hq. apply contains_spec in Hq. vm_compute in Hq. discriminate.
  - apply (proj2 (proj2 (url_token_separator (one_server None unreachable) 0
             (Server.fresh (Some "http://10.0.0.97:32400") None unreachable)
             "http://10.0.0.97:32400" "/clients" eq_refl eq_refl))).
    by left.
Defined.

(** ** The status code contract *)

Lemma status_ok_iff (z : Z) :
  bool_decide (z ∈ [200; 201]%Z) = true ↔ z = 200%Z ∨ z = 201%Z.
Proof.
  rewrite bool_decide_eq_true, !elem_of_cons, elem_of_nil. tauto.
Qed.

Lemma classify_ok `{Extern} (r : Response.t) :
  Response.status_code r = 200%Z ∨ Response.status_code r = 201%Z →
  classify r =
    if Py.nonempty (Py.encode_utf8 (Response.text r)) then
      match fromstring (Py.encode_utf8 (Response.text r)) with
      | Some e => Return (Some e)
      | None => Raise ParseError
      end
    else Return None.
Proof.
  intros Hok. apply status_ok_iff in Hok. unfold classify. by rewrite Hok.
Qed.

Lemma classify_bad `{Extern} (r : Response.t) c names :
  Response.status_code r ≠ 200%Z → Response.status_code r ≠ 201%Z →
  codes !! Response.status_code r = Some (c :: names) →
  classify r =
    Raise (BadRequest ("(" +:+ pretty (Response.status_code r) +:+ ") "
                       +:+ c +:+ " " +:+ Response.url r)).
Proof.
  intros H200 H201 Hc. unfold classify.
  destruct (bool_decide _) eqn:Hd.
  - apply status_ok_iff in Hd. tauto.
  - simpl. by rewrite Hc.
Qed.

(** The status 299 is not in the table of the requests library:
    [codes.get(299)] is [None] and [None[0]] is a [TypeError]. *)
Example query_unnamed_status :
  fst (@PlexServer.query sample_extern 0 "/status" None None ∅
         (one_server None get_299)) = Raise TypeError.
Proof. vm_compute. reflexivity. Qed.

(** C1, against the claim as written: the server answers 404 with the
    reason phrase [Not Found]; the message raised holds [not_found], the
    name the requests library gives the status, and not the phrase. *)
Lemma query_reason_phrase_counterexample :
  fst (@PlexServer.query sample_extern 0 "/status" None None ∅
         (one_server None get_404))
  ≠ Raise (BadRequest (reason_message
      (Response.mk 404 "Not Found" "" "http://10.0.0.97:32400/status"))).
Proof. vm_compute. discriminate. Qed.

(** C1, amended.  For the response [r] the transport returns (the call
    being one the method is entered with): with status 200 or 201
    [query] raises no [BadRequest] (the one exception it can raise is
    the parser's, on a malformed body); with any other status that the
    status table of the requests library names, it raises [BadRequest]
    with the text [(status) name url], made of the status code, the
    first name of the status in that table and the url of the
    response. *)
Theorem query_status_contract `{Extern} (w : World) (self : loc)
    (s : Server.t) (path : string) (method : option Method)
    (headers : option (gmap string string)) (kwargs : gmap string string)
    (r : Response.t) :
  servers w !! self = Some s →
  collides kwargs = false →
  answer (default (Server.session_get s) method) (sent w)
         (request_of s (BASE_HEADERS w) path method headers kwargs) = Return r →
  (Response.status_code r = 200%Z ∨ Response.status_code r = 201%Z →
   ∀ e, fst (PlexServer.query self path method headers kwargs w) = Raise e →
        e = ParseError)
  ∧ (Response.status_code r ≠ 200%Z → Response.status_code r ≠ 201%Z →
     ∀ c names, codes !! Response.status_code r = Some (c :: names) →
       fst (PlexServer.query self path method headers kwargs w) =
         Raise (BadRequest ("(" +:+ pretty (Response.status_code r) +:+ ") "
                            +:+ c +:+ " " +:+ Response.url r))).
Proof.
  intros Hs Hk Hr. rewrite (query_run _ _ _ _ _ _ _ Hs Hk), Hr. simpl. split.
  - intros Hok e. rewrite (classify_ok _ Hok).
    destruct (Py.nonempty _); [|done].
    destruct (fromstring _); [done|]. by intros [= <-].
  - intros H200 H201 c names Hc. by apply classify_bad with names.
Qed.

Lemma query_status_contract_witness :
  (∀ e, fst (@PlexServer.query sample_extern 0 "/" None None ∅
               (one_server None get_root)) = Raise e → e = ParseError)
  ∧ fst (@PlexServer.query sample_extern 0 "/status" None None ∅
           (one_server None get_404))
    = Raise (BadRequest "(404) not_found http://10.0.0.97:32400/status").
Proof.
  split.
  - apply (proj1 (@query_status_contract sample_extern
             (one_server None get_root) 0 (plain_server None get_root)
             "/" None None ∅
             (Response.mk 200 "OK" root_xml "http://10.0.0.97:32400/")
             eq_refl collides_empty eq_refl)).
    left. reflexivity.
  - assert (H200 : 404%Z ≠ 200%Z) by discriminate.
    assert (H201 : 404%Z ≠ 201%Z) by discriminate.
    exact (proj2 (@query_status_contract sample_extern
             (one_server None get_404) 0 (plain_server None get_404)
             "/status" None None ∅
             (Response.mk 404 "Not Found" "" "http://10.0.0.97:32400/status")
             eq_refl collides_empty eq_refl) H200 H201 "not_found" ["-o-"]
             eq_refl).
Defined.

(** ** The token in the error text *)

Lemma str_app_assoc (a b c : string) : (a +:+ b) +:+ c = a +:+ (b +:+ c).
Proof.
  induction a as [|x a IH]; [done|].
  change (String x ((a +:+ b) +:+ c) = String x (a +:+ (b +:+ c))).
  by rewrite IH.
Qed.

Lemma str_app_nil_r (a : string) : a +:+ "" = a.
Proof.
  induction a as [|x a IH]; [done|].
  change (String x (a +:+ "") = String x a). by rewrite IH.
Qed.

Lemma contains_app_l (n h q : string) :
  Py.contains n h = true → Py.contains n (h +:+ q) = true.
Proof.
  rewrite !contains_spec. intros (pre & post & ->).
  exists pre, (post +:+ q).
  by rewrite !str_app_assoc.
Qed.

Lemma contains_suffix (n p : string) : Py.contains n (p +:+ n) = true.
Proof.
  apply contains_spec. exists p, "". by rewrite str_app_nil_r.
Qed.

Lemma url_of_contains_token (s : Server.t) (path t : string) :
  Server.token s = Some t → t ≠ "" → Py.contains t (url_of s path) = true.
Proof.
  intros Ht Hne. unfold url_of. rewrite Ht, (truthy_Some _ Hne).
  do 3 apply contains_app_r. apply contains_suffix.
Qed.

(** C4, where the code falls short of the claim.  A server is given the
    token [SECRET] (which [__init__] registers as a secret with the log
    filter) and gets a 404 for [/status]: the [BadRequest] that [query]
    raises carries the url with the token in clear, where the claim has
    the token never appear in an error text. *)
Lemma bad_request_token_in_text :
  fst (@PlexServer.query sample_extern 0 "/status" None None ∅
         (one_server (Some "SECRET") get_404))
    = Raise (BadRequest
        "(404) not_found http://10.0.0.97:32400/status?X-Plex-Token=SECRET")
  ∧ Py.contains "SECRET"
      "(404) not_found http://10.0.0.97:32400/status?X-Plex-Token=SECRET"
    = true.
Proof. split; vm_compute; reflexivity. Qed.

(** X25.  The [BadRequest] raised for a bad status ends with the url of
    the response as it is, nothing taken out: when a token is
    configured and the response reports the url of the request, the
    token is part of the error text. *)
Theorem bad_request_message_holds_token `{Extern} (w : World) (self : loc)
    (s : Server.t) (path : string) (method : option Method)
    (headers : option (gmap string string)) (kwargs : gmap string string)
    (r : Response.t) (t c : string) (names : list string) :
  servers w !! self = Some s →
  collides kwargs = false →
  Server.token s = Some t →
  t ≠ "" →
  answer (default (Server.session_get s) method) (sent w)
         (request_of s (BASE_HEADERS w) path method headers kwargs) = Return r →
  Response.status_code r ≠ 200%Z →
  Response.status_code r ≠ 201%Z →
  codes !! Response.status_code r = Some (c :: names) →
  Response.url r =
    Request.url (request_of s (BASE_HEADERS w) path method headers kwargs) →
  ∃ front,
    fst (PlexServer.query self path method headers kwargs w) =
      Raise (BadRequest (front +:+ Response.url r))
    ∧ Py.contains t (front +:+ Response.url r) = true.
Proof.
  intros Hs Hk Ht Hne Hr H200 H201 Hc Hurl.
  exists ("(" +:+ pretty (Response.status_code r) +:+ ") " +:+ c +:+ " ").
  rewrite (query_run _ _ _ _ _ _ _ Hs Hk), Hr. simpl fst.
  rewrite (classify_bad _ _ _ H200 H201 Hc). split.
  - by rewrite !str_app_assoc.
  - apply contains_app_r. rewrite Hurl.
    by apply url_of_contains_token.
Qed.

Lemma bad_request_message_holds_token_witness :
  ∃ front,
    fst (@PlexServer.query sample_extern 0 "/status" None None ∅
           (one_server (Some "SECRET") get_404)) =
      Raise (BadRequest
        (front +:+ "http://10.0.0.97:32400/status?X-Plex-Token=SECRET"))
    ∧ Py.contains "SECRET"
        (front +:+ "http://10.0.0.97:32400/status?X-Plex-Token=SECRET") = true.
Proof.
  assert (Hne : "SECRET" ≠ "") by discriminate.
  assert (H200 : 404%Z ≠ 200%Z) by discriminate.
  assert (H201 : 404%Z ≠ 201%Z) by discriminate.
  exact (@bad_request_message_holds_token sample_extern
           (one_server (Some "SECRET") get_404) 0
           (plain_server (Some "SECRET") get_404) "/status" None None ∅
           (Response.mk 404 "Not Found" ""
              "http://10.0.0.97:32400/status?X-Plex-Token=SECRET")
           "SECRET" "not_found" ["-o-"]
           eq_refl collides_empty eq_refl Hne eq_refl H200 H201 eq_refl
           eq_refl).
Defined.

(** ** The headers handed to the transport *)

Lemma query_sent `{Extern} w self s path method headers kwargs :
  servers w !! self = Some s →
  collides kwargs = false →
  sent (snd (PlexServer.query self path method headers kwargs w)) =
    sent w ++ [request_of s (BASE_HEADERS w) path method headers kwargs].
Proof. intros Hs Hk. by rewrite (query_run _ _ _ _ _ _ _ Hs Hk). Qed.

Lemma query_sent_plain `{Extern} w self s path method headers :
  servers w !! self = Some s →
  sent (snd (PlexServer.query self path method headers ∅ w)) =
    sent w ++ [request_of s (BASE_HEADERS w) path method headers ∅].
Proof. intros Hs. apply (query_sent _ _ _ _ _ _ _ Hs collides_empty). Qed.





(** ** The body of a successful response *)

Lemma encode_nonempty (t : Py.str) :
  Py.nonempty (Py.encode_utf8 t) = Py.nonempty t.
Proof.
  destruct t as [|c t]; [done|].
  change (Py.encode_utf8 (String c t))
    with (Py.encode_char c +:+ Py.encode_utf8 t).
  unfold Py.encode_char. by destruct (_ <? _)%N.
Qed.

(** UTF-8 written and read back is the text, and UTF-8 read and written
    back is the octets. *)
Lemma utf8_decode_encode_char (c : ascii) (rest : Py.bytes) :
  utf8_decode (Py.encode_char c +:+ rest) = String c <$> utf8_decode rest.
Proof.
  destruct c as [[] [] [] [] [] [] [] []]; reflexivity.
Qed.

Lemma utf8_decode_encode (t : Py.str) :
  utf8_decode (Py.encode_utf8 t) = Some t.
Proof.
  induction t as [|c t IH]; [done|].
  change (Py.encode_utf8 (String c t))
    with (Py.encode_char c +:+ Py.encode_utf8 t).
  by rewrite utf8_decode_encode_char, IH.
Qed.




(** U+00E9 is the two octets [C3 A9]. *)
Example encode_two_octets :
  Py.encode_utf8 (String (ascii_of_N 233) "")
  = String (ascii_of_N 195) (String (ascii_of_N 169) "").
Proof. reflexivity. Qed.



(** ** The handshake *)

Lemma query_servers `{Extern} w self s path method headers kwargs :
  servers w !! self = Some s →
  servers (snd (PlexServer.query self path method headers kwargs w)) = servers w.
Proof.
  intros Hs. destruct (collides kwargs) eqn:Hk.
  - by rewrite (query_refused _ _ _ _ _ _ _ Hs Hk).
  - by rewrite (query_run _ _ _ _ _ _ _ Hs Hk).
Qed.

Lemma connect_run `{Extern} w self s :
  servers w !! self = Some s →
  PlexServer._connect self w =
    match PlexServer.query self "/" None None ∅ w with
    | (Return a, w') => (Return a, w')
    | (Raise _, w') =>
        (Raise (NotFound ("No server found at: "
                          +:+ Py.fmt (Server.baseurl s))), w')
    end.
Proof.
  intros Hs. unfold PlexServer._connect, try_except.
  pose proof (query_servers w self s "/" None None ∅ Hs) as Hsv.
  destruct (PlexServer.query self "/" None None ∅ w) as [[a|e] w'];
    [done|].
  simpl in Hsv.
  assert (Hs' : servers w' !! self = Some s) by by rewrite Hsv.
  by rewrite (bind_Return _ _ _ _ _ (deref_run _ _ _ Hs')).
Qed.

Lemma new_server_run (s : Server.t) (w : World) :
  new_server s w =
    (Return (length (servers w)),
     mkWorld (BASE_HEADERS w) (dicts w) (servers w ++ [s]) (libraries w)
             (sent w)).
Proof. reflexivity. Qed.

(** C3, against the claim as written: the host cannot be reached; the
    error is a [NotFound], the kind a failed lookup raises, and its text
    is not [no server found at <url>]. *)
Lemma connect_failure_counterexample :
  ∃ text,
    fst (@PlexServer._connect sample_extern 0 (one_server None unreachable))
      = Raise (NotFound text)
    ∧ text ≠ "no server found at http://10.0.0.97:32400".
Proof.
  exists "No server found at: http://10.0.0.97:32400".
  split; [vm_compute; reflexivity | discriminate].
Qed.

(** C3, amended.  Whatever exception the GET of the root path ends in (a
    timeout or a refused connection of the transport, the [BadRequest]
    of a bad status, the parser's error on a malformed body),
    [_connect] raises [NotFound] with the text [No server found at:
    <baseurl>], and so does the constructor, for the base url it
    settled on. *)
Theorem connect_collapses_errors `{Extern} :
  (∀ (w : World) (self : loc) (s : Server.t) (e : exn) (w' : World),
     servers w !! self = Some s →
     PlexServer.query self "/" None None ∅ w = (Raise e, w') →
     PlexServer._connect self w =
       (Raise (NotFound ("No server found at: "
                         +:+ Py.fmt (Server.baseurl s))), w'))
  ∧ (∀ (baseurl token : option string) (session : option Method)
       (w : World) (e : exn) (w' : World),
     PlexServer.query (length (servers w)) "/" None None ∅
       (snd (new_server
               (Server.fresh
                  (Py.or_else baseurl (CONFIG !! "authentication.baseurl"))
                  (Py.or_else token (CONFIG !! "authentication.token"))
                  (default Session_get session)) w)) = (Raise e, w') →
     PlexServer.__init__ baseurl token session w =
       (Raise (NotFound ("No server found at: "
          +:+ Py.fmt (Py.or_else baseurl (CONFIG !! "authentication.baseurl")))),
        w')).
Proof.
  assert (Hconn : ∀ (w : World) (self : loc) (s : Server.t) (e : exn)
                    (w' : World),
     servers w !! self = Some s →
     PlexServer.query self "/" None None ∅ w = (Raise e, w') →
     PlexServer._connect self w =
       (Raise (NotFound ("No server found at: "
                         +:+ Py.fmt (Server.baseurl s))), w')).
  { intros w self s e w' Hs Hq. by rewrite (connect_run _ _ _ Hs), Hq. }
  split; [exact Hconn|].
  intros baseurl token session w e w' Hq. unfold PlexServer.__init__.
  rewrite (bind_Return _ _ _ _ _ (new_server_run _ _)).
  rewrite new_server_run in Hq. simpl in Hq.
  apply bind_Raise.
  apply (Hconn _ _ (Server.fresh
                  (Py.or_else baseurl (CONFIG !! "authentication.baseurl"))
                  (Py.or_else token (CONFIG !! "authentication.token"))
                  (default Session_get session)) e); [|done].
  simpl. by rewrite lookup_app_r, Nat.sub_diag.
Qed.

Lemma connect_collapses_errors_witness :
  fst (@PlexServer._connect sample_extern 0 (one_server None unreachable))
    = Raise (NotFound "No server found at: http://10.0.0.97:32400")
  ∧ fst (@PlexServer._connect sample_extern 0 (one_server None get_404))
    = Raise (NotFound "No server found at: http://10.0.0.97:32400")
  ∧ fst (@PlexServer.__init__ sample_extern (Some "http://localhost:32400")
           None None (one_server None get_root))
    = Raise (NotFound "No server found at: http://localhost:32400").
Proof.
  split; [|split].
  - exact (f_equal fst (proj1 (@connect_collapses_errors sample_extern)
             (one_server None unreachable) 0 (plain_server None unreachable)
             (RequestException "ConnectTimeout")
             (snd (@PlexServer.query sample_extern 0 "/" None None ∅
                     (one_server None unreachable)))
             eq_refl eq_refl)).
  - exact (f_equal fst (proj1 (@connect_collapses_errors sample_extern)
             (one_server None get_404) 0 (plain_server None get_404)
             (BadRequest "(404) not_found http://10.0.0.97:32400/")
             (snd (@PlexServer.query sample_extern 0 "/" None None ∅
                     (one_server None get_404)))
             eq_refl eq_refl)).
  - exact (f_equal fst (proj2 (@connect_collapses_errors sample_extern)
             (Some "http://localhost:32400") None None
             (one_server None get_root)
             (RequestException "ConnectTimeout")
             (snd (@PlexServer.query sample_extern 1 "/" None None ∅
                (snd (new_server
                        (Server.fresh (Some "http://localhost:32400") None
                                      unreachable)
                        (one_server None get_root)))))
             eq_refl)).
Defined.

(** ** The shared header dict *)



(** The second server has no token of its own, and still sends the
    first server's once the first has called [headers()]. *)
Example tokenless_server_sends_token :
  (λ rq, Request.headers rq !! "X-Plex-Token") <$>
    sent (snd (@PlexServer.query sample_extern 1 "/clients" None None ∅
                 (snd (PlexServer.headers 0 two_servers))))
  = [Some "SECRET"].
Proof. vm_compute. reflexivity. Qed.

(** ** The cached library and the client listing *)

Lemma library_cached `{Extern} w self s l :
  servers w !! self = Some s →
  Server._library s = Some l →
  PlexServer.library self w = (Return (Some l), w).
Proof.
  intros Hs Hl. unfold PlexServer.library.
  rewrite (bind_Return _ _ _ _ _ (deref_run _ _ _ Hs)). rewrite Hl. simpl.
  rewrite (bind_Return _ _ _ tt _ eq_refl).
  rewrite (bind_Return _ _ _ _ _ (deref_run _ _ _ Hs)). by rewrite Hl.
Qed.

Lemma library_first `{Extern} w self s :
  servers w !! self = Some s →
  Server._library s = None →
  PlexServer.library self w =
    match PlexServer.query self "/library/" None None ∅ w with
    | (Raise e, w1) => (Raise e, w1)
    | (Return data, w1) =>
        (Return (Some (length (libraries w1))),
         mkWorld (BASE_HEADERS w1) (dicts w1)
                 (<[self := Server.set_library s (Some (length (libraries w1)))]>
                    (servers w1))
                 (libraries w1 ++ [Library.mk self data]) (sent w1))
    end.
Proof.
  intros Hs Hl. unfold PlexServer.library.
  rewrite (bind_Return _ _ _ _ _ (deref_run _ _ _ Hs)). rewrite Hl. simpl.
  pose proof (query_servers w self s "/library/" None None ∅ Hs) as Hsv.
  unfold bind at 1 2.
  destruct (PlexServer.query self "/library/" None None ∅ w) as [[data|e] w1];
    [|done].
  simpl in Hsv. unfold Library_new, bind, deref, store, ret. simpl.
  rewrite Hsv, Hs. simpl.
  rewrite list_lookup_insert_eq by (by eapply lookup_lt_Some).
  done.
Qed.

Lemma client_baseurl_run (elem : Element) (w : World) :
  PlexServer.client_baseurl elem w = (address_of elem, w).
Proof.
  unfold PlexServer.client_baseurl, address_of, getitem, bind, ret, raise.
  destruct (attrib elem !! "host"); [|done].
  by destruct (attrib elem !! "port").
Qed.

Lemma clients_loop_world (self : loc) (elems : list Element)
    (items : list PlexClient.t) (w : World) :
  snd (PlexServer.clients_loop self elems items w) = w.
Proof.
  revert items. induction elems as [|elem rest IH]; intros items; [done|].
  simpl. unfold bind. rewrite client_baseurl_run.
  destruct (address_of elem); [apply IH|done].
Qed.

Lemma clients_loop_ok (self : loc) (elems : list Element)
    (items : list PlexClient.t) (w : World) :
  Forall (λ e, is_Some (attrib e !! "host") ∧ is_Some (attrib e !! "port"))
         elems →
  ∃ more,
    fst (PlexServer.clients_loop self elems items w) = Return (items ++ more)
    ∧ length more = length elems
    ∧ ∀ i e, elems !! i = Some e →
        ∃ host port,
          attrib e !! "host" = Some host ∧ attrib e !! "port" = Some port
          ∧ more !! i = Some (PlexClient.mk ("http://" +:+ host +:+ ":" +:+ port)
                                            self e).
Proof.
  intros Hall. revert items.
  induction Hall as [|elem rest [[host Hh] [port Hp]] _ IH]; intros items.
  - exists []. by rewrite app_nil_r.
  - simpl. unfold bind. rewrite client_baseurl_run.
    unfold address_of. rewrite Hh, Hp.
    destruct (IH (items ++
      [PlexClient.mk ("http://" +:+ host +:+ ":" +:+ port) self elem]))
      as (more & Hrun & Hlen & Hat).
    exists (PlexClient.mk ("http://" +:+ host +:+ ":" +:+ port) self elem :: more).
    split; [|split].
    + rewrite Hrun. by rewrite <- app_assoc.
    + simpl. by rewrite Hlen.
    + intros [|i] e He; simpl in He.
      * injection He as <-. by exists host, port.
      * by apply Hat.
Qed.

Lemma clients_loop_skip (self : loc) (before : list Element) :
  Forall (λ e, is_Some (attrib e !! "host") ∧ is_Some (attrib e !! "port"))
         before →
  ∀ (items : list PlexClient.t), ∃ more, ∀ (rest : list Element) (w : World),
    PlexServer.clients_loop self (before ++ rest) items w =
      PlexServer.clients_loop self rest (items ++ more) w.
Proof.
  induction 1 as [|elem before [[host Hh] [port Hp]] _ IH]; intros items.
  - exists []. intros rest w. by rewrite app_nil_r.
  - destruct (IH (items ++
      [PlexClient.mk ("http://" +:+ host +:+ ":" +:+ port) self elem]))
      as [more Hmore].
    exists (PlexClient.mk ("http://" +:+ host +:+ ":" +:+ port) self elem
            :: more).
    intros rest w. simpl. unfold bind. rewrite client_baseurl_run.
    unfold address_of. rewrite Hh, Hp, Hmore. by rewrite <- app_assoc.
Qed.

Lemma clients_run `{Extern} (self : loc) (w : World) :
  PlexServer.clients self w =
    match PlexServer.query self "/clients" None None ∅ w with
    | (Raise e, w1) => (Raise e, w1)
    | (Return None, w1) => (Raise TypeError, w1)
    | (Return (Some root), w1) =>
        PlexServer.clients_loop self (children root) [] w1
    end.
Proof.
  unfold PlexServer.clients, bind.
  by destruct (PlexServer.query self "/clients" None None ∅ w)
    as [[[root|]|e] w1].
Qed.

Lemma clients_world `{Extern} (self : loc) (w : World) :
  snd (PlexServer.clients self w) =
    snd (PlexServer.query self "/clients" None None ∅ w).
Proof.
  rewrite clients_run.
  destruct (PlexServer.query self "/clients" None None ∅ w)
    as [[[root|]|e] w1]; try done.
  apply clients_loop_world.
Qed.

(** C6.  Once an access to [library] has returned a reference, every
    later access on the same server object returns that reference and
    leaves the store as it is: no request goes out.  The first access
    sends one request, for [/library/].  Every call of [clients()] sends
    one more request, for [/clients], and when the listing arrives with
    [host] and [port] on each entry it returns one descriptor per
    entry, in the order of the listing, whose base url is
    [http://<host>:<port>] from the entry's own attributes. *)
Theorem library_cached_clients_fresh `{Extern} :
  (∀ (w : World) (self : loc) (l : loc) (w1 w2 : World),
     PlexServer.library self w = (Return (Some l), w1) →
     servers w2 !! self = servers w1 !! self →
     PlexServer.library self w2 = (Return (Some l), w2))
  ∧ (∀ (w : World) (self : loc) (s : Server.t),
       servers w !! self = Some s →
       Server._library s = None →
       sent (snd (PlexServer.library self w)) =
         sent w ++ [request_of s (BASE_HEADERS w) "/library/" None None ∅])
  ∧ (∀ (w : World) (self : loc) (s : Server.t),
       servers w !! self = Some s →
       sent (snd (PlexServer.clients self w)) =
         sent w ++ [request_of s (BASE_HEADERS w) "/clients" None None ∅]
       ∧ servers (snd (PlexServer.clients self w)) = servers w)
  ∧ (∀ (w : World) (self : loc) (root : Element),
       fst (PlexServer.query self "/clients" None None ∅ w)
         = Return (Some root) →
       Forall (λ e, is_Some (attrib e !! "host") ∧ is_Some (attrib e !! "port"))
              (children root) →
       ∃ items,
         fst (PlexServer.clients self w) = Return items
         ∧ length items = length (children root)
         ∧ ∀ i e, children root !! i = Some e →
             ∃ host port,
               attrib e !! "host" = Some host ∧ attrib e !! "port" = Some port
               ∧ items !! i =
                   Some (PlexClient.mk ("http://" +:+ host +:+ ":" +:+ port)
                                       self e)).
Proof.
  split; [|split; [|split]].
  - intros w self l w1 w2 Hrun Hsame.
    assert (Hcached : ∃ s1, servers w1 !! self = Some s1
                            ∧ Server._library s1 = Some l).
    { destruct (servers w !! self) as [s|] eqn:Hs.
      - destruct (Server._library s) as [l0|] eqn:Hl.
        + rewrite (library_cached _ _ _ _ Hs Hl) in Hrun.
          injection Hrun as <- <-. by exists s.
        + rewrite (library_first _ _ _ Hs Hl) in Hrun.
          pose proof (query_servers w self s "/library/" None None ∅ Hs) as Hsv.
          destruct (PlexServer.query self "/library/" None None ∅ w)
            as [[data|e] wq]; [|done].
          simpl in Hsv. injection Hrun as <- <-. simpl.
          exists (Server.set_library s (Some (length (libraries wq)))).
          split; [|reflexivity].
          rewrite list_lookup_insert_eq; [done|].
          rewrite Hsv. by eapply lookup_lt_Some.
      - unfold PlexServer.library, bind, deref in Hrun.
        by rewrite Hs in Hrun. }
    destruct Hcached as (s1 & Hs1 & Hl1). rewrite <- Hsame in Hs1.
    by apply library_cached with s1.
  - intros w self s Hs Hl. rewrite (library_first _ _ _ Hs Hl).
    pose proof (query_sent_plain w self s "/library/" None None Hs) as Hq.
    by destruct (PlexServer.query self "/library/" None None ∅ w)
      as [[data|e] wq].
  - intros w self s Hs. rewrite clients_world.
    split; [by apply query_sent_plain|by apply query_servers with s].
  - intros w self root Hq Hall. rewrite clients_run.
    destruct (PlexServer.query self "/clients" None None ∅ w) as [o wq].
    simpl in Hq. subst o.
    destruct (clients_loop_ok self (children root) [] wq Hall)
      as (more & Hrun & Hlen & Hat).
    by exists more.
Qed.

Lemma library_cached_clients_fresh_witness :
  @PlexServer.library sample_extern 0 (snd (@PlexServer.library sample_extern 0
                               (one_server None get_root)))
    = (Return (Some 0),
       snd (@PlexServer.library sample_extern 0 (one_server None get_root)))
  ∧ sent (snd (@PlexServer.library sample_extern 0 (one_server None get_root)))
    = [] ++ [@request_of sample_extern (plain_server None get_root)
               (BASE_HEADERS (one_server None get_root))
               "/library/" None None ∅]
  ∧ sent (snd (@PlexServer.clients sample_extern 0
                 (one_server None get_clients)))
    = [] ++ [@request_of sample_extern (plain_server None get_clients)
               (BASE_HEADERS (one_server None get_clients))
               "/clients" None None ∅]
  ∧ ∃ items,
      fst (@PlexServer.clients sample_extern 0 (one_server None get_clients))
        = Return items
      ∧ length items = 2.
Proof.
  split; [|split; [|split]].
  - exact (proj1 (@library_cached_clients_fresh sample_extern)
             (one_server None get_root) 0 0
             (snd (@PlexServer.library sample_extern 0
                     (one_server None get_root)))
             (snd (@PlexServer.library sample_extern 0
                     (one_server None get_root)))
             eq_refl eq_refl).
  - exact (proj1 (proj2 (@library_cached_clients_fresh sample_extern))
             (one_server None get_root) 0 (plain_server None get_root)
             eq_refl eq_refl).
  - exact (proj1 (proj1 (proj2 (proj2 (@library_cached_clients_fresh
                                         sample_extern)))
             (one_server None get_clients) 0 (plain_server None get_clients)
             eq_refl)).
  - assert (Hall : Forall (λ e, is_Some (attrib e !! "host")
                                ∧ is_Some (attrib e !! "port"))
                          (children clients_elem)).
    { repeat constructor; eexists; vm_compute; reflexivity. }
    destruct (proj2 (proj2 (proj2 (@library_cached_clients_fresh sample_extern)))
                (one_server None get_clients) 0 clients_elem eq_refl Hall)
      as (items & Hrun & Hlen & _).
    exists items. split; [exact Hrun|exact Hlen].
Defined.

(** One descriptor per entry of the listing, each at the entry's own
    address and none at the server's [http://10.0.0.97:32400]. *)
Example clients_of_listing :
  PlexClient.baseurl <$>
    match fst (@PlexServer.clients sample_extern 0
                 (one_server None get_clients)) with
    | Return items => items
    | Raise _ => []
    end
  = ["http://10.0.0.7:32500"; "http://10.0.0.5:32500"].
Proof. vm_compute. reflexivity. Qed.

(** ** Looking a client up by name *)

Example lower_ignores_case :
  Py.lower "BOB" = Py.lower "Bob" ∧ Py.lower "John's iPhone" = "john's iphone".
Proof. split; reflexivity. Qed.



Example equal_ignoring_case_examples :
  equal_ignoring_case "BOB" "Bob" = true
  ∧ equal_ignoring_case "Bob" "Rob" = false
  ∧ equal_ignoring_case "Bob" "Bobby" = false.
Proof. repeat split. Qed.

Lemma client_run `{Extern} (self : loc) (name : string) (w : World) :
  PlexServer.client self name w =
    match PlexServer.query self "/clients" None None ∅ w with
    | (Raise e, w1) => (Raise e, w1)
    | (Return None, w1) => (Raise TypeError, w1)
    | (Return (Some root), w1) =>
        PlexServer.client_loop self name (children root) w1
    end.
Proof.
  unfold PlexServer.client, bind.
  by destruct (PlexServer.query self "/clients" None None ∅ w)
    as [[[root|]|e] w1].
Qed.


Lemma client_loop_skip (self : loc) (name : string)
    (before rest : list Element) (w : World) :
  Forall (λ e, ∃ m, attrib e !! "name" = Some m
                    ∧ Py.lower m ≠ Py.lower name) before →
  PlexServer.client_loop self name (before ++ rest) w =
    PlexServer.client_loop self name rest w.
Proof.
  induction 1 as [|elem before (m & Hm & Hne) _ IH]; [done|].
  simpl. rewrite Hm. apply String.eqb_neq in Hne. by rewrite Hne.
Qed.


(** C9, where the code falls short of the claim.  The listing has one
    entry and that entry has no [name], so no entry matches [Bob]:
    [client("Bob")] raises [AttributeError] (on [None.lower()]) where
    the claim, and the docstring of [client], have it raise
    [NotFound]. *)
Lemma client_no_match_nameless :
  fst (@PlexServer.client (parsing_to nameless_root) 0 "Bob"
         (one_server None get_body))
  = Raise AttributeError.
Proof. vm_compute. reflexivity. Qed.



(** ** Reading attributes *)


Lemma int_attr_run `{Extern} (a : gmap string string) (key : string)
    (w : World) :
  PlexServer.int_attr a key w =
    (match a !! key with
     | None => Return 0%Z
     | Some v => match int_of_str v with
                 | Some z => Return z
                 | None => Raise ValueError
                 end
     end, w).
Proof.
  unfold PlexServer.int_attr. destruct (a !! key) as [v|]; [|done].
  by destruct (int_of_str v).
Qed.





(** A handshake answered with an empty body: [query] returns [None] and
    the constructor fails on [data.attrib]. *)
Example init_on_empty_body :
  fst (@PlexServer.__init__ sample_extern (Some "http://localhost:32400") None
         (Some get_empty) (one_server None unreachable))
  = Raise AttributeError.
Proof. vm_compute. reflexivity. Qed.

(** * Further properties of the module *)

(** ** transcodeImage *)

(** X1.  [transcodeImage] sends no request and leaves the store as it
    is; it returns [None] exactly when [media] is [None] or empty, and a
    url otherwise. *)
Theorem transcodeImage_builds_only (w : World) (self : loc) (s : Server.t)
    (media : option string) (height width opacity saturation : Z) :
  servers w !! self = Some s →
  snd (PlexServer.transcodeImage self media height width opacity saturation w)
    = w
  ∧ (fst (PlexServer.transcodeImage self media height width opacity
            saturation w) = Return None
     ↔ media = None ∨ media = Some "")
  ∧ (Py.truthy media = true →
     ∃ u, fst (PlexServer.transcodeImage self media height width opacity
                 saturation w) = Return (Some u)).
Proof.
  intros Hs. unfold PlexServer.transcodeImage.
  destruct (Py.truthy media) eqn:Hm.
  - rewrite (bind_Return _ _ _ _ _ (url_run _ _ _ _ Hs)).
    split; [done|]. split; [|by eexists].
    split; [done|]. intros Hn. apply truthy_false in Hn. congruence.
  - split; [done|]. split; [|done].
    split; [intros _; by apply truthy_false|done].
Qed.

Lemma transcodeImage_builds_only_witness :
  snd (PlexServer.transcodeImage 0 None 100 100 100 100
         (one_server (Some "SECRET") unreachable))
    = one_server (Some "SECRET") unreachable
  ∧ fst (PlexServer.transcodeImage 0 None 100 100 100 100
           (one_server (Some "SECRET") unreachable)) = Return None.
Proof.
  pose proof (transcodeImage_builds_only
                (one_server (Some "SECRET") unreachable) 0
                (plain_server (Some "SECRET") unreachable)
                None 100 100 100 100 eq_refl) as (Hw & Hnone & _).
  split; [exact Hw|]. apply Hnone. by left.
Defined.

(** X2.  The path [transcodeImage] builds always holds a [?], so with a
    token configured the token is appended with [&], never with [?]:
    the url is baseurl, the transcode path with the four numbers and the
    media reference, then [&X-Plex-Token=<token>]. *)
Theorem transcodeImage_token_separator (w : World) (self : loc)
    (s : Server.t) (b t media : string)
    (height width opacity saturation : Z) :
  servers w !! self = Some s →
  Server.baseurl s = Some b →
  Server.token s = Some t →
  t ≠ "" →
  media ≠ "" →
  fst (PlexServer.transcodeImage self (Some media) height width opacity
         saturation w) =
    Return (Some (b +:+ ("/photo/:/transcode?height=" +:+ pretty height
                         +:+ "&width=" +:+ pretty width
                         +:+ "&opacity=" +:+ pretty opacity
                         +:+ "&saturation=" +:+ pretty saturation
                         +:+ "&url=" +:+ media)
                    +:+ "&X-Plex-Token=" +:+ t)).
Proof.
  intros Hs Hb Ht Hne Hm. unfold PlexServer.transcodeImage.
  rewrite (truthy_Some _ Hm).
  rewrite (bind_Return _ _ _ _ _ (url_run _ _ _ _ Hs)).
  unfold url_of. rewrite Hb, Ht, (truthy_Some _ Hne).
  assert (Hq : Py.contains "?"
     ("/photo/:/transcode?height=" +:+ pretty height
        +:+ "&width=" +:+ pretty width
        +:+ "&opacity=" +:+ pretty opacity
        +:+ "&saturation=" +:+ pretty saturation
        +:+ "&url=" +:+ Py.fmt (Some media)) = true).
  { apply contains_spec.
    exists "/photo/:/transcode",
      ("height=" +:+ pretty height
        +:+ "&width=" +:+ pretty width
        +:+ "&opacity=" +:+ pretty opacity
        +:+ "&saturation=" +:+ pretty saturation
        +:+ "&url=" +:+ Py.fmt (Some media)).
    reflexivity. }
  rewrite Hq. reflexivity.
Qed.

Lemma transcodeImage_token_separator_witness :
  fst (PlexServer.transcodeImage 0 (Some "media123") 100 200 100 100
         (one_server (Some "SECRET") unreachable)) =
    Return (Some "http://10.0.0.97:32400/photo/:/transcode?height=100&width=200&opacity=100&saturation=100&url=media123&X-Plex-Token=SECRET").
Proof.
  assert (Hne : "SECRET" ≠ "") by discriminate.
  assert (Hm : "media123" ≠ "") by discriminate.
  exact (transcodeImage_token_separator
           (one_server (Some "SECRET") unreachable) 0
           (plain_server (Some "SECRET") unreachable)
           "http://10.0.0.97:32400" "SECRET" "media123" 100 200 100 100
           eq_refl eq_refl eq_refl Hne Hm).
Defined.

(** ** What query leaves alone *)

Lemma base_after_token (s : Server.t) (t : string) (base : gmap string string) :
  Server.token s = Some t → t ≠ "" →
  base_after s base = <["X-Plex-Token" := t]> base.
Proof. intros Ht Hne. unfold base_after. by rewrite Ht, (truthy_Some _ Hne). Qed.

Lemma base_after_no_token (s : Server.t) (base : gmap string string) :
  Py.truthy (Server.token s) = false → base_after s base = base.
Proof. intros Hno. unfold base_after. by rewrite Hno. Qed.

(** X3.  Whatever headers the caller passes and whatever the outcome,
    [query] changes no server object and no library, and the caller's
    headers never reach the shared [BASE_HEADERS]: after the call it is
    what it was, plus the server's own token when one is configured. *)
Theorem query_frame `{Extern} (w : World) (self : loc) (s : Server.t)
    (path : string) (method : option Method)
    (headers : option (gmap string string)) (kwargs : gmap string string) :
  servers w !! self = Some s →
  servers (snd (PlexServer.query self path method headers kwargs w))
    = servers w
  ∧ libraries (snd (PlexServer.query self path method headers kwargs w))
    = libraries w
  ∧ (Py.truthy (Server.token s) = false →
     BASE_HEADERS (snd (PlexServer.query self path method headers kwargs w))
       = BASE_HEADERS w)
  ∧ (∀ t, Server.token s = Some t → t ≠ "" →
     BASE_HEADERS (snd (PlexServer.query self path method headers kwargs w))
       = <["X-Plex-Token" := t]> (BASE_HEADERS w)).
Proof.
  intros Hs.
  assert (Hw : ∃ rqs,
    snd (PlexServer.query self path method headers kwargs w) =
      mkWorld (base_after s (BASE_HEADERS w))
              (dicts w ++ [sent_headers s (BASE_HEADERS w) headers])
              (servers w) (libraries w) rqs).
  { destruct (collides kwargs) eqn:Hk.
    - rewrite (query_refused _ _ _ _ _ _ _ Hs Hk). by eexists.
    - rewrite (query_run _ _ _ _ _ _ _ Hs Hk). by eexists. }
  destruct Hw as [rqs ->]. simpl.
  do 2 (split; [done|]). split.
  - apply base_after_no_token.
  - intros t. apply base_after_token.
Qed.

Lemma query_frame_witness :
  servers (snd (@PlexServer.query sample_extern 0 "/status" None
                  (Some {["Accept" := "text/xml"]}) ∅
                  (one_server None get_404)))
    = servers (one_server None get_404)
  ∧ BASE_HEADERS (snd (@PlexServer.query sample_extern 0 "/status" None
                         (Some {["Accept" := "text/xml"]}) ∅
                         (one_server None get_404)))
    = BASE_HEADERS (one_server None get_404).
Proof.
  pose proof (@query_frame sample_extern (one_server None get_404) 0
                (plain_server None get_404) "/status" None
                (Some {["Accept" := "text/xml"]}) ∅ eq_refl)
    as (Hsv & _ & Hbase & _).
  split; [exact Hsv|]. apply Hbase. reflexivity.
Defined.

(** X4.  [headers()] is idempotent on the store: a second call right
    after the first returns the same dict object and changes nothing
    more. *)
Theorem headers_idempotent (w : World) (self : loc) (s : Server.t) :
  servers w !! self = Some s →
  PlexServer.headers self (snd (PlexServer.headers self w)) =
    (Return The_BASE_HEADERS, snd (PlexServer.headers self w)).
Proof.
  intros Hs. rewrite (headers_run _ _ _ Hs). simpl.
  erewrite headers_run by exact Hs. simpl. f_equal. f_equal.
  unfold base_after. destruct (Py.truthy (Server.token s)); [|done].
  apply insert_insert_eq.
Qed.

Lemma headers_idempotent_witness :
  PlexServer.headers 0 (snd (PlexServer.headers 0 two_servers)) =
    (Return The_BASE_HEADERS, snd (PlexServer.headers 0 two_servers)).
Proof.
  exact (headers_idempotent two_servers 0
           (plain_server (Some "SECRET") get_root) eq_refl).
Defined.



(** X6.  When the transport itself raises (timeout, refused
    connection) on a call it was entered with, [query] lets that
    exception through unchanged; the request is on record all the
    same. *)
Theorem query_transport_error `{Extern} (w : World) (self : loc)
    (s : Server.t) (path : string) (method : option Method)
    (headers : option (gmap string string)) (kwargs : gmap string string)
    (e : exn) :
  servers w !! self = Some s →
  collides kwargs = false →
  answer (default (Server.session_get s) method) (sent w)
         (request_of s (BASE_HEADERS w) path method headers kwargs) = Raise e →
  fst (PlexServer.query self path method headers kwargs w) = Raise e
  ∧ sent (snd (PlexServer.query self path method headers kwargs w)) =
      sent w ++ [request_of s (BASE_HEADERS w) path method headers kwargs].
Proof.
  intros Hs Hk Ha. rewrite (query_run _ _ _ _ _ _ _ Hs Hk), Ha. done.
Qed.

Lemma query_transport_error_witness :
  fst (@PlexServer.query sample_extern 0 "/status" None None ∅
         (one_server None unreachable))
    = Raise (RequestException "ConnectTimeout")
  ∧ sent (snd (@PlexServer.query sample_extern 0 "/status" None None ∅
                 (one_server None unreachable)))
    = [] ++ [@request_of sample_extern (plain_server None unreachable)
               (BASE_HEADERS (one_server None unreachable))
               "/status" None None ∅].
Proof.
  exact (@query_transport_error sample_extern (one_server None unreachable) 0
           (plain_server None unreachable) "/status" None None ∅
           (RequestException "ConnectTimeout") eq_refl collides_empty eq_refl).
Defined.

(** ** The constructor *)

Lemma connect_full `{Extern} (w : World) (self : loc) (s : Server.t) :
  servers w !! self = Some s →
  PlexServer._connect self w =
    (match answer (Server.session_get s) (sent w)
             (request_of s (BASE_HEADERS w) "/" None None ∅) with
     | Return r =>
         match classify r with
         | Return a => Return a
         | Raise _ => Raise (NotFound ("No server found at: "
                                       +:+ Py.fmt (Server.baseurl s)))
         end
     | Raise _ => Raise (NotFound ("No server found at: "
                                   +:+ Py.fmt (Server.baseurl s)))
     end,
     world_after s None (request_of s (BASE_HEADERS w) "/" None None ∅) w).
Proof.
  intros Hs. rewrite (connect_run _ _ _ Hs), (query_run_plain _ _ _ _ _ _ Hs).
  simpl. destruct (answer _ _ _) as [r|e]; [|done].
  by destruct (classify r).
Qed.

Lemma init_after_connect `{Extern} (baseurl token : option string)
    (session : option Method) (w : World) :
  PlexServer.__init__ baseurl token session w =
    let b := Py.or_else baseurl (CONFIG !! "authentication.baseurl") in
    let t := Py.or_else token (CONFIG !! "authentication.token") in
    let g := default Session_get session in
    let self := length (servers w) in
    match PlexServer._connect self
            (mkWorld (BASE_HEADERS w) (dicts w)
                     (servers w ++ [Server.fresh b t g]) (libraries w)
                     (sent w)) with
    | (Raise e, w1) => (Raise e, w1)
    | (Return None, w1) => (Raise AttributeError, w1)
    | (Return (Some d), w1) =>
        match read_int (attrib d) "transcoderActiveVideoSessions" with
        | Raise e => (Raise e, w1)
        | Return z1 =>
            match read_int (attrib d) "updatedAt" with
            | Raise e => (Raise e, w1)
            | Return z2 =>
                (Return self,
                 mkWorld (BASE_HEADERS w1) (dicts w1)
                         (<[self := root_fields b t g d z1 z2]> (servers w1))
                         (libraries w1) (sent w1))
            end
        end
    end.
Proof.
  unfold PlexServer.__init__.
  rewrite (bind_Return _ _ _ _ _ (new_server_run _ _)). simpl.
  unfold bind at 1.
  destruct (PlexServer._connect _ _) as [[[d|]|e] w1]; try done.
  unfold bind. rewrite !int_attr_run. unfold read_int.
  destruct (attrib d !! "transcoderActiveVideoSessions") as [v1|];
    [destruct (int_of_str v1); [|done]|];
    (destruct (attrib d !! "updatedAt") as [v2|];
     [destruct (int_of_str v2); [|done]|]); done.
Qed.

(** The store after the constructor, whatever its outcome: one more
    server object, one more request, the settled token in the shared
    headers. *)
Lemma init_world `{Extern} (baseurl token : option string)
    (session : option Method) (w : World) :
  let fr := Server.fresh
              (Py.or_else baseurl (CONFIG !! "authentication.baseurl"))
              (Py.or_else token (CONFIG !! "authentication.token"))
              (default Session_get session) in
  ∃ s',
    snd (PlexServer.__init__ baseurl token session w) =
      mkWorld (base_after fr (BASE_HEADERS w))
              (dicts w ++ [base_after fr (BASE_HEADERS w)])
              (servers w ++ [s']) (libraries w)
              (sent w ++ [request_of fr (BASE_HEADERS w) "/" None None ∅])
    ∧ Server.baseurl s' = Server.baseurl fr
    ∧ Server.token s' = Server.token fr
    ∧ Server._library s' = None.
Proof.
  intros fr. rewrite init_after_connect. cbv zeta. fold fr.
  set (w0 := mkWorld (BASE_HEADERS w) (dicts w) (servers w ++ [fr])
                     (libraries w) (sent w)).
  assert (Hfr : servers w0 !! length (servers w) = Some fr)
    by (simpl; by rewrite lookup_app_r, Nat.sub_diag).
  rewrite (connect_full w0 _ fr Hfr). simpl.
  assert (Hput : ∀ x, <[length (servers w) := x]> (servers w ++ [fr])
                      = servers w ++ [x]).
  { intros x. by rewrite insert_app_r_alt, Nat.sub_diag. }
  destruct (answer _ _ _) as [r|e]; [|by exists fr].
  destruct (classify r) as [[d|]|e]; [|by exists fr|by exists fr].
  destruct (read_int (attrib d) "transcoderActiveVideoSessions") as [z1|e];
    [|by exists fr].
  destruct (read_int (attrib d) "updatedAt") as [z2|e]; [|by exists fr].
  simpl. rewrite Hput. by eexists.
Qed.

(** X7.  A handshake that is answered with status 200 or 201 and an
    empty body is not reported as [NotFound]: [query] returns [None]
    for it, and the constructor fails with [AttributeError] on
    [data.attrib]. *)
Theorem init_empty_body `{Extern} (baseurl token : option string)
    (session : option Method) (w : World) (r : Response.t) :
  answer (default Session_get session) (sent w)
    (request_of
       (Server.fresh
          (Py.or_else baseurl (CONFIG !! "authentication.baseurl"))
          (Py.or_else token (CONFIG !! "authentication.token"))
          (default Session_get session))
       (BASE_HEADERS w) "/" None None ∅) = Return r →
  Response.status_code r = 200%Z ∨ Response.status_code r = 201%Z →
  Response.text r = "" →
  fst (PlexServer.__init__ baseurl token session w) = Raise AttributeError.
Proof.
  intros Ha Hok Htext. rewrite init_after_connect. cbv zeta.
  set (fr := Server.fresh
               (Py.or_else baseurl (CONFIG !! "authentication.baseurl"))
               (Py.or_else token (CONFIG !! "authentication.token"))
               (default Session_get session)) in *.
  set (w0 := mkWorld (BASE_HEADERS w) (dicts w) (servers w ++ [fr])
                     (libraries w) (sent w)).
  assert (Hfr : servers w0 !! length (servers w) = Some fr)
    by (simpl; by rewrite lookup_app_r, Nat.sub_diag).
  rewrite (connect_full w0 _ fr Hfr). simpl.
  rewrite Ha, (classify_ok _ Hok), Htext. done.
Qed.

Lemma init_empty_body_witness :
  fst (@PlexServer.__init__ sample_extern (Some "http://localhost:32400") None
         (Some get_empty) (one_server None unreachable))
  = Raise AttributeError.
Proof.
  exact (@init_empty_body sample_extern (Some "http://localhost:32400") None
           (Some get_empty) (one_server None unreachable)
           (Response.mk 200 "OK" "" "http://localhost:32400/")
           eq_refl (or_introl eq_refl) eq_refl).
Defined.

(** X8.  A root node whose [transcoderActiveVideoSessions] or
    [updatedAt] is present and does not read as an integer makes the
    constructor raise [ValueError]. *)
Theorem init_bad_integer `{Extern} (baseurl token : option string)
    (session : option Method) (w : World) (d : Element) (w1 : World) :
  PlexServer._connect (length (servers w))
    (snd (new_server
            (Server.fresh
               (Py.or_else baseurl (CONFIG !! "authentication.baseurl"))
               (Py.or_else token (CONFIG !! "authentication.token"))
               (default Session_get session)) w)) = (Return (Some d), w1) →
  (∃ v, attrib d !! "transcoderActiveVideoSessions" = Some v
        ∧ int_of_str v = None)
  ∨ (∃ v, attrib d !! "updatedAt" = Some v ∧ int_of_str v = None) →
  PlexServer.__init__ baseurl token session w = (Raise ValueError, w1).
Proof.
  intros Hconn Hbad. rewrite init_after_connect. cbv zeta.
  rewrite new_server_run in Hconn. simpl in Hconn. rewrite Hconn.
  unfold read_int. destruct Hbad as [(v & Hv & Hint)|(v & Hv & Hint)].
  - by rewrite Hv, Hint.
  - rewrite Hv, Hint.
    destruct (attrib d !! "transcoderActiveVideoSessions") as [v1|];
      [|done].
    by destruct (int_of_str v1).
Qed.

Lemma init_bad_integer_witness :
  fst (@PlexServer.__init__ more_extern (Some "http://localhost:32400") None
         (Some get_bad_sessions) (one_server None unreachable))
  = Raise ValueError.
Proof.
  assert (Hbad :
    (∃ v, attrib bad_sessions_elem !! "transcoderActiveVideoSessions" = Some v
          ∧ @int_of_str more_extern v = None)
    ∨ (∃ v, attrib bad_sessions_elem !! "updatedAt" = Some v
            ∧ @int_of_str more_extern v = None)).
  { left. exists "many". split; reflexivity. }
  exact (f_equal fst (@init_bad_integer more_extern
           (Some "http://localhost:32400") None (Some get_bad_sessions)
           (one_server None unreachable) bad_sessions_elem
           (snd (@PlexServer._connect more_extern 1
              (snd (new_server
                      (Server.fresh (Some "http://localhost:32400") None
                                    get_bad_sessions)
                      (one_server None unreachable)))))
           eq_refl Hbad)).
Defined.

(** X9.  Whether it returns or raises, the constructor keeps every
    server object that existed, adds exactly one (with the base url and
    token it settled on and an empty library cache), creates no
    library, and sends exactly one request, for the root path. *)
Theorem init_frame `{Extern} (baseurl token : option string)
    (session : option Method) (w : World) :
  ∃ s' rq,
    servers (snd (PlexServer.__init__ baseurl token session w))
      = servers w ++ [s']
    ∧ Server.baseurl s'
      = Py.or_else baseurl (CONFIG !! "authentication.baseurl")
    ∧ Server.token s' = Py.or_else token (CONFIG !! "authentication.token")
    ∧ Server._library s' = None
    ∧ libraries (snd (PlexServer.__init__ baseurl token session w))
      = libraries w
    ∧ sent (snd (PlexServer.__init__ baseurl token session w))
      = sent w ++ [rq]
    ∧ Request.url rq =
        url_of (Server.fresh
                  (Py.or_else baseurl (CONFIG !! "authentication.baseurl"))
                  (Py.or_else token (CONFIG !! "authentication.token"))
                  (default Session_get session)) "/".
Proof.
  destruct (init_world baseurl token session w) as (s' & Hw & Hb & Ht & Hl).
  exists s'. eexists. rewrite Hw. simpl. by repeat split.
Qed.

(** X10.  Constructing a server with a token writes that token into
    the shared [BASE_HEADERS], also when the handshake fails and no
    server is returned. *)
Theorem init_leaves_token `{Extern} (baseurl token : option string)
    (session : option Method) (w : World) (t : string) :
  Py.or_else token (CONFIG !! "authentication.token") = Some t →
  t ≠ "" →
  BASE_HEADERS (snd (PlexServer.__init__ baseurl token session w))
    = <["X-Plex-Token" := t]> (BASE_HEADERS w).
Proof.
  intros Ht Hne.
  destruct (init_world baseurl token session w) as (s' & Hw & _).
  rewrite Hw. simpl. by apply base_after_token.
Qed.

Lemma init_leaves_token_witness :
  fst (@PlexServer.__init__ sample_extern (Some "http://localhost:32400")
         (Some "SECRET") None (one_server None get_root))
    = Raise (NotFound "No server found at: http://localhost:32400")
  ∧ BASE_HEADERS
      (snd (@PlexServer.__init__ sample_extern (Some "http://localhost:32400")
              (Some "SECRET") None (one_server None get_root)))
    = <["X-Plex-Token" := "SECRET"]> (BASE_HEADERS (one_server None get_root)).
Proof.
  assert (Hne : "SECRET" ≠ "") by discriminate.
  split; [vm_compute; reflexivity|].
  exact (@init_leaves_token sample_extern (Some "http://localhost:32400")
           (Some "SECRET") None (one_server None get_root) "SECRET"
           eq_refl Hne).
Defined.

(** ** The library cache, once more *)

(** X11.  A first access to [library] whose request fails raises that
    failure and caches nothing: the server object is as it was, and the
    next access sends a request again. *)
Theorem library_failure_not_cached `{Extern} (w : World) (self : loc)
    (s : Server.t) (e : exn) (w1 : World) :
  servers w !! self = Some s →
  Server._library s = None →
  PlexServer.query self "/library/" None None ∅ w = (Raise e, w1) →
  PlexServer.library self w = (Raise e, w1)
  ∧ servers w1 !! self = Some s
  ∧ sent (snd (PlexServer.library self w1)) =
      sent w1 ++ [request_of s (BASE_HEADERS w1) "/library/" None None ∅].
Proof.
  intros Hs Hl Hq.
  pose proof (query_servers w self s "/library/" None None ∅ Hs) as Hsv.
  rewrite Hq in Hsv. simpl in Hsv.
  assert (Hs1 : servers w1 !! self = Some s) by by rewrite Hsv.
  split; [by rewrite (library_first _ _ _ Hs Hl), Hq|]. split; [done|].
  rewrite (library_first _ _ _ Hs1 Hl).
  pose proof (query_sent_plain w1 self s "/library/" None None Hs1) as Hsent.
  by destruct (PlexServer.query self "/library/" None None ∅ w1)
    as [[data|e'] wq].
Qed.

Lemma library_failure_not_cached_witness :
  fst (@PlexServer.library sample_extern 0 (one_server None get_404))
    = Raise (BadRequest "(404) not_found http://10.0.0.97:32400/library/")
  ∧ length (sent (snd (@PlexServer.library sample_extern 0
                         (snd (@PlexServer.library sample_extern 0
                                 (one_server None get_404)))))) = 2.
Proof.
  assert (Hq : @PlexServer.query sample_extern 0 "/library/" None None ∅
                 (one_server None get_404) =
               (Raise (BadRequest
                         "(404) not_found http://10.0.0.97:32400/library/"),
                snd (@PlexServer.query sample_extern 0 "/library/" None None ∅
                       (one_server None get_404))))
    by reflexivity.
  destruct (@library_failure_not_cached sample_extern
              (one_server None get_404) 0 (plain_server None get_404)
              (BadRequest "(404) not_found http://10.0.0.97:32400/library/")
              (snd (@PlexServer.query sample_extern 0 "/library/" None None ∅
                      (one_server None get_404)))
              eq_refl eq_refl Hq) as (Hrun & _ & Hsent).
  split.
  - exact (f_equal fst Hrun).
  - rewrite (f_equal snd Hrun). simpl snd. rewrite Hsent. reflexivity.
Defined.

(** X12.  A first access to [library] that succeeds makes exactly one
    [Library] object, holding the server's reference and the node of
    [/library/], under a reference no earlier library has; it stores
    that reference in the server and changes nothing else of it, and
    no other server object. *)
Theorem library_first_access `{Extern} (w : World) (self : loc)
    (s : Server.t) (data : option Element) (w1 : World) :
  servers w !! self = Some s →
  Server._library s = None →
  PlexServer.query self "/library/" None None ∅ w = (Return data, w1) →
  ∃ w2 s2,
    PlexServer.library self w = (Return (Some (length (libraries w))), w2)
    ∧ libraries w2 = libraries w ++ [Library.mk self data]
    ∧ servers w2 !! self = Some s2
    ∧ Server._library s2 = Some (length (libraries w))
    ∧ Server.baseurl s2 = Server.baseurl s
    ∧ Server.token s2 = Server.token s
    ∧ (∀ other, other ≠ self → servers w2 !! other = servers w !! other)
    ∧ sent w2 = sent w1.
Proof.
  intros Hs Hl Hq.
  pose proof (query_run_plain w self s "/library/" None None Hs) as Hrun.
  rewrite Hq in Hrun. injection Hrun as _ Hw1.
  rewrite (library_first _ _ _ Hs Hl), Hq.
  assert (Hlibs : libraries w1 = libraries w) by by rewrite Hw1.
  assert (Hsv : servers w1 = servers w) by by rewrite Hw1.
  rewrite Hlibs, Hsv. eexists _, _. split; [reflexivity|]. simpl.
  split; [done|]. split.
  { apply list_lookup_insert_eq. by eapply lookup_lt_Some. }
  do 3 (split; [done|]). split; [|done].
  intros other Hne. by apply list_lookup_insert_ne.
Qed.

Lemma library_first_access_witness :
  ∃ w2 s2,
    @PlexServer.library sample_extern 1 two_servers = (Return (Some 0), w2)
    ∧ libraries w2 = [] ++ [Library.mk 1 (Some clients_elem)]
    ∧ servers w2 !! 1 = Some s2
    ∧ Server._library s2 = Some 0
    ∧ Server.baseurl s2 = Some "http://10.0.0.97:32400"
    ∧ Server.token s2 = None
    ∧ (∀ other, other ≠ 1 → servers w2 !! other = servers two_servers !! other)
    ∧ sent w2 = sent (snd (@PlexServer.query sample_extern 1 "/library/"
                             None None ∅ two_servers)).
Proof.
  exact (@library_first_access sample_extern two_servers 1
           (plain_server None get_clients) (Some clients_elem)
           (snd (@PlexServer.query sample_extern 1 "/library/" None None ∅
                   two_servers))
           eq_refl eq_refl eq_refl).
Defined.

(** ** Listings that are not what the loops expect *)

(** X13.  When [/clients] is answered with status 200 or 201 and an
    empty body, [query] returns [None], and both [clients()] and
    [client(name)] raise [TypeError] on iterating it; [client] does not
    raise [NotFound] then. *)
Theorem clients_empty_body `{Extern} (w : World) (self : loc)
    (s : Server.t) (name : string) (r : Response.t) :
  servers w !! self = Some s →
  answer (Server.session_get s) (sent w)
         (request_of s (BASE_HEADERS w) "/clients" None None ∅) = Return r →
  Response.status_code r = 200%Z ∨ Response.status_code r = 201%Z →
  Response.text r = "" →
  fst (PlexServer.clients self w) = Raise TypeError
  ∧ fst (PlexServer.client self name w) = Raise TypeError.
Proof.
  intros Hs Ha Hok Htext.
  rewrite clients_run, client_run, (query_run_plain _ _ _ _ _ _ Hs).
  simpl. rewrite Ha, (classify_ok _ Hok), Htext. done.
Qed.

Lemma clients_empty_body_witness :
  fst (@PlexServer.clients sample_extern 0 (one_server None get_empty))
    = Raise TypeError
  ∧ fst (@PlexServer.client sample_extern 0 "Bob" (one_server None get_empty))
    = Raise TypeError.
Proof.
  exact (@clients_empty_body sample_extern (one_server None get_empty) 0
           (plain_server None get_empty) "Bob"
           (Response.mk 200 "OK" "" "http://10.0.0.97:32400/clients")
           eq_refl eq_refl (or_introl eq_refl) eq_refl).
Defined.

(** X14.  An entry without a [name] attribute that [client(name)]
    reaches before any match makes it raise [AttributeError]
    ([None.lower()]), whatever entries follow, a matching one
    included. *)
Theorem client_nameless_entry `{Extern} (w : World) (self : loc)
    (name : string) (root : Element) (before : list Element)
    (elem : Element) (after : list Element) :
  fst (PlexServer.query self "/clients" None None ∅ w) = Return (Some root) →
  children root = before ++ elem :: after →
  Forall (λ e, ∃ m, attrib e !! "name" = Some m
                    ∧ Py.lower m ≠ Py.lower name) before →
  attrib elem !! "name" = None →
  fst (PlexServer.client self name w) = Raise AttributeError.
Proof.
  intros Hq Hch Hbefore Hn. rewrite client_run.
  destruct (PlexServer.query self "/clients" None None ∅ w) as [o wq].
  simpl in Hq. subst o. rewrite Hch, (client_loop_skip _ _ _ _ _ Hbefore).
  simpl. by rewrite Hn.
Qed.

Lemma client_nameless_entry_witness :
  fst (@PlexServer.client more_extern 0 "Bob" (one_server None get_noname))
    = Raise AttributeError.
Proof.
  exact (@client_nameless_entry more_extern (one_server None get_noname) 0
           "Bob" noname_root [] noname_elem [bob_elem]
           eq_refl eq_refl (Forall_nil_2 _) eq_refl).
Defined.

(** X15.  [clients()] is all or nothing: the first entry of the listing
    that lacks [host] (or, having it, lacks [port]) makes the whole
    call raise [KeyError] for that key, and no descriptor of the
    entries before it is returned. *)
Theorem clients_missing_key `{Extern} (w : World) (self : loc)
    (root : Element) (before : list Element) (elem : Element)
    (after : list Element) :
  fst (PlexServer.query self "/clients" None None ∅ w) = Return (Some root) →
  children root = before ++ elem :: after →
  Forall (λ e, is_Some (attrib e !! "host") ∧ is_Some (attrib e !! "port"))
         before →
  (attrib elem !! "host" = None →
   fst (PlexServer.clients self w) = Raise (KeyError "host"))
  ∧ (is_Some (attrib elem !! "host") → attrib elem !! "port" = None →
     fst (PlexServer.clients self w) = Raise (KeyError "port")).
Proof.
  intros Hq Hch Hbefore. rewrite clients_run.
  destruct (PlexServer.query self "/clients" None None ∅ w) as [o wq].
  simpl in Hq. subst o. rewrite Hch.
  destruct (clients_loop_skip self before Hbefore []) as [more Hmore].
  rewrite Hmore. simpl. unfold bind. rewrite client_baseurl_run.
  unfold address_of. split.
  - by intros ->.
  - by intros [host ->] ->.
Qed.

Lemma clients_missing_key_witness :
  fst (@PlexServer.clients sample_extern 0 (one_server None get_nohost))
    = Raise (KeyError "host")
  ∧ fst (@PlexServer.clients (parsing_to noport_root) 0
           (one_server None get_body))
    = Raise (KeyError "port").
Proof.
  split.
  - exact (proj1 (@clients_missing_key sample_extern
                    (one_server None get_nohost) 0 nohost_root [] nohost_elem
                    [] eq_refl eq_refl (Forall_nil_2 _)) eq_refl).
  - assert (Hbefore : Forall (λ e, is_Some (attrib e !! "host")
                                   ∧ is_Some (attrib e !! "port")) [bob_elem]).
    { repeat constructor; eexists; vm_compute; reflexivity. }
    assert (Hhost : is_Some (attrib noport_elem !! "host")).
    { eexists; vm_compute; reflexivity. }
    exact (proj2 (@clients_missing_key (parsing_to noport_root)
                    (one_server None get_body) 0 noport_root [bob_elem]
                    noport_elem [] eq_refl eq_refl Hbefore) Hhost eq_refl).
Defined.

(** ** How the two lookups of clients agree *)

Lemma clients_loop_members (self : loc) (elems : list Element) :
  ∀ (items out : list PlexClient.t) (w : World),
    fst (PlexServer.clients_loop self elems items w) = Return out →
    (∀ x, x ∈ items → x ∈ out)
    ∧ ∀ e b, e ∈ elems → address_of e = Return b →
             PlexClient.mk b self e ∈ out.
Proof.
  induction elems as [|elem rest IH]; intros items out w Hrun.
  - simpl in Hrun. injection Hrun as <-. split; [done|].
    intros e b He. by apply elem_of_nil in He.
  - simpl in Hrun. unfold bind in Hrun. rewrite client_baseurl_run in Hrun.
    destruct (address_of elem) as [b0|err] eqn:Haddr; [|done].
    destruct (IH _ _ _ Hrun) as [Hitems Hrest]. split.
    + intros x Hx. apply Hitems, elem_of_app. by left.
    + intros e b He Hb. apply elem_of_cons in He as [->|He].
      * rewrite Haddr in Hb. injection Hb as <-.
        apply Hitems, elem_of_app. right. by apply list_elem_of_singleton.
      * by apply Hrest.
Qed.

Lemma client_loop_member (self : loc) (name : string) (elems : list Element)
    (w : World) (c : PlexClient.t) :
  fst (PlexServer.client_loop self name elems w) = Return c →
  ∃ e b, e ∈ elems ∧ address_of e = Return b ∧ c = PlexClient.mk b self e.
Proof.
  induction elems as [|elem rest IH]; intros Hrun; [done|].
  simpl in Hrun. destruct (attrib elem !! "name") as [n|]; [|done].
  destruct (String.eqb _ _).
  - unfold bind in Hrun. rewrite client_baseurl_run in Hrun.
    destruct (address_of elem) as [b|err] eqn:Haddr; [|done].
    injection Hrun as <-. exists elem, b. split; [|done].
    apply elem_of_cons. by left.
  - destruct (IH Hrun) as (e & b & He & Hb & Hc). exists e, b.
    split; [|done]. apply elem_of_cons. by right.
Qed.

(** X16.  [client(name)] and [clients()] agree: when both are answered
    with the same listing and both return, the descriptor [client]
    returns is one of those [clients] returns. *)
Theorem client_among_clients `{Extern} (w1 w2 : World) (self : loc)
    (name : string) (root : Element) (c : PlexClient.t)
    (items : list PlexClient.t) :
  fst (PlexServer.query self "/clients" None None ∅ w1) = Return (Some root) →
  fst (PlexServer.query self "/clients" None None ∅ w2) = Return (Some root) →
  fst (PlexServer.client self name w1) = Return c →
  fst (PlexServer.clients self w2) = Return items →
  c ∈ items.
Proof.
  intros Hq1 Hq2 Hc Hitems. rewrite client_run in Hc.
  rewrite clients_run in Hitems.
  destruct (PlexServer.query self "/clients" None None ∅ w1) as [o1 wq1].
  destruct (PlexServer.query self "/clients" None None ∅ w2) as [o2 wq2].
  simpl in Hq1, Hq2. subst o1 o2.
  destruct (client_loop_member _ _ _ _ _ Hc) as (e & b & He & Hb & ->).
  by apply (proj2 (clients_loop_members _ _ _ _ _ Hitems)).
Qed.

Lemma client_among_clients_witness :
  PlexClient.mk "http://10.0.0.5:32500" 0 bob_elem
  ∈ [PlexClient.mk "http://10.0.0.7:32500" 0 tv_elem;
     PlexClient.mk "http://10.0.0.5:32500" 0 bob_elem].
Proof.
  exact (@client_among_clients sample_extern
           (one_server None get_clients) (one_server None get_clients) 0
           "bob" clients_elem
           (PlexClient.mk "http://10.0.0.5:32500" 0 bob_elem)
           [PlexClient.mk "http://10.0.0.7:32500" 0 tv_elem;
            PlexClient.mk "http://10.0.0.5:32500" 0 bob_elem]
           eq_refl eq_refl eq_refl eq_refl).
Defined.

Lemma client_loop_same_case (self : loc) (n1 n2 : string)
    (elems : list Element) (w : World) :
  Py.lower n1 = Py.lower n2 →
  PlexServer.client_loop self n2 elems w =
    match PlexServer.client_loop self n1 elems w with
    | (Raise (NotFound _), w') =>
        (Raise (NotFound ("Unknown client name: " +:+ n2)), w')
    | other => other
    end.
Proof.
  intros Hcase. induction elems as [|elem rest IH]; [done|].
  simpl. destruct (attrib elem !! "name") as [n|]; [|done].
  rewrite Hcase. destruct (String.eqb _ _); [|exact IH].
  unfold bind. rewrite client_baseurl_run. unfold address_of.
  destruct (attrib elem !! "host"); [|done].
  by destruct (attrib elem !! "port").
Qed.

(** X17.  The case of the argument does not matter to [client]: two
    names that are equal in lower case get the same outcome on the same
    store, the same descriptor or the same exception, a [NotFound]
    apart, whose text repeats the name as it was given. *)
Theorem client_argument_case `{Extern} (w : World) (self : loc)
    (n1 n2 : string) (o : outcome PlexClient.t) :
  Py.lower n1 = Py.lower n2 →
  fst (PlexServer.client self n1 w) = o →
  (∀ text, o ≠ Raise (NotFound text)) →
  fst (PlexServer.client self n2 w) = o.
Proof.
  intros Hcase Hrun Hnot. rewrite client_run in *.
  destruct (PlexServer.query self "/clients" None None ∅ w)
    as [[[root|]|e] wq]; try done.
  rewrite (client_loop_same_case _ _ _ _ _ Hcase).
  destruct (PlexServer.client_loop self n1 (children root) wq) as [[c|e] w'];
    [done|].
  simpl in Hrun. destruct e; try done. by destruct (Hnot msg).
Qed.

Lemma client_argument_case_witness :
  fst (@PlexServer.client sample_extern 0 "bOb" (one_server None get_clients))
    = Return (PlexClient.mk "http://10.0.0.5:32500" 0 bob_elem).
Proof.
  assert (Hnot : ∀ text,
    Return (PlexClient.mk "http://10.0.0.5:32500" 0 bob_elem)
    ≠ Raise (NotFound text)) by discriminate.
  exact (@client_argument_case sample_extern (one_server None get_clients) 0
           "BOB" "bOb"
           (Return (PlexClient.mk "http://10.0.0.5:32500" 0 bob_elem))
           eq_refl eq_refl Hnot).
Defined.

(** ** account *)

Lemma account_run `{Extern} (self : loc) (w : World) :
  PlexServer.account self w =
    match PlexServer.query self "/myplex/account" None None ∅ w with
    | (Raise e, w1) => (Raise e, w1)
    | (Return data, w1) => Account_init self data w1
    end.
Proof.
  unfold PlexServer.account, bind.
  by destruct (PlexServer.query self "/myplex/account" None None ∅ w)
    as [[data|e] w1].
Qed.

(** X18.  [account()] reads every attribute of the node of
    [/myplex/account] with a default: it returns for every node, and a
    field whose attribute is missing is [None]. *)
Theorem account_fields_total `{Extern} (w : World) (self : loc)
    (d : Element) :
  fst (PlexServer.query self "/myplex/account" None None ∅ w)
    = Return (Some d) →
  ∃ a,
    fst (PlexServer.account self w) = Return a
    ∧ Account.authToken a = attrib d !! "authToken"
    ∧ Account.username a = attrib d !! "username"
    ∧ Account.mappingState a = attrib d !! "mappingState"
    ∧ Account.mappingError a = attrib d !! "mappingError"
    ∧ Account.mappingErrorMessage a = attrib d !! "mappingErrorMessage"
    ∧ Account.signInState a = attrib d !! "signInState"
    ∧ Account.publicAddress a = attrib d !! "publicAddress"
    ∧ Account.publicPort a = attrib d !! "publicPort"
    ∧ Account.privateAddress a = attrib d !! "privateAddress"
    ∧ Account.privatePort a = attrib d !! "privatePort"
    ∧ Account.subscriptionFeatures a = attrib d !! "subscriptionFeatures"
    ∧ Account.subscriptionActive a = attrib d !! "subscriptionActive"
    ∧ Account.subscriptionState a = attrib d !! "subscriptionState".
Proof.
  intros Hq. rewrite account_run.
  destruct (PlexServer.query self "/myplex/account" None None ∅ w) as [o wq].
  simpl in Hq. subst o. eexists. split; [reflexivity|]. by repeat split.
Qed.

Lemma account_fields_total_witness :
  ∃ a,
    fst (@PlexServer.account more_extern 0 (one_server None get_account))
      = Return a
    ∧ Account.username a = Some "someone@example.org"
    ∧ Account.authToken a = None.
Proof.
  destruct (@account_fields_total more_extern (one_server None get_account) 0
              account_elem eq_refl)
    as (a & Hrun & Htoken & Huser & _).
  exists a. split; [exact Hrun|]. split; [exact Huser|exact Htoken].
Defined.

(** X19.  [account()] sends one request, for [/myplex/account], and
    reports its failures as they are: an exception of [query] (the
    [BadRequest] of a bad status included) is raised unchanged, not
    turned into [NotFound] as in the handshake, and an empty body makes
    it raise [AttributeError]. *)
Theorem account_failures `{Extern} (w : World) (self : loc) (s : Server.t) :
  servers w !! self = Some s →
  sent (snd (PlexServer.account self w)) =
    sent w ++ [request_of s (BASE_HEADERS w) "/myplex/account" None None ∅]
  ∧ (∀ e, fst (PlexServer.query self "/myplex/account" None None ∅ w)
            = Raise e →
          fst (PlexServer.account self w) = Raise e)
  ∧ (fst (PlexServer.query self "/myplex/account" None None ∅ w)
       = Return None →
     fst (PlexServer.account self w) = Raise AttributeError).
Proof.
  intros Hs. rewrite account_run.
  pose proof (query_sent_plain w self s "/myplex/account" None None Hs) as Hsent.
  destruct (PlexServer.query self "/myplex/account" None None ∅ w)
    as [[[d|]|e] wq]; simpl in *; repeat split; try done.
  intros e' He. by injection He as <-.
Qed.

Lemma account_failures_witness :
  fst (@PlexServer.account sample_extern 0 (one_server None get_404))
    = Raise (BadRequest "(404) not_found http://10.0.0.97:32400/myplex/account")
  ∧ fst (@PlexServer.account sample_extern 0 (one_server None get_empty))
    = Raise AttributeError.
Proof.
  split.
  - exact (proj1 (proj2 (@account_failures sample_extern
             (one_server None get_404) 0 (plain_server None get_404) eq_refl))
             (BadRequest
                "(404) not_found http://10.0.0.97:32400/myplex/account")
             eq_refl).
  - exact (proj2 (proj2 (@account_failures sample_extern
             (one_server None get_empty) 0 (plain_server None get_empty)
             eq_refl)) eq_refl).
Defined.

(** ** playlist and search *)

Lemma playlist_loop_skip (title : string) (before rest : list Item.t)
    (w : World) :
  Forall (λ i, Item.title i ≠ Some title) before →
  PlexServer.playlist_loop title (before ++ rest) w =
    PlexServer.playlist_loop title rest w.
Proof.
  induction 1 as [|item before Hne _ IH]; [done|].
  simpl. by rewrite (bool_decide_eq_false_2 _ Hne).
Qed.

(** X20.  [playlist(title)] returns the first item of [playlists()]
    whose title is exactly [title] (no folding of case, unlike
    [client]); when no item has that title it raises [NotFound] with
    the text [Invalid playlist title: <title>]; a failure of the
    listing is raised as it is. *)
Theorem playlist_first_exact_match `{Utils} (w : World) (self : loc)
    (title : string) :
  (∀ (before : list Item.t) (item : Item.t) (after : list Item.t)
     (w' : World),
     listItems self "/playlists" w = (Return (before ++ item :: after), w') →
     Forall (λ i, Item.title i ≠ Some title) before →
     Item.title item = Some title →
     PlexServer.playlist self title w = (Return item, w'))
  ∧ (∀ (items : list Item.t) (w' : World),
       listItems self "/playlists" w = (Return items, w') →
       Forall (λ i, Item.title i ≠ Some title) items →
       PlexServer.playlist self title w =
         (Raise (NotFound ("Invalid playlist title: " +:+ title)), w'))
  ∧ (∀ (e : exn) (w' : World),
       listItems self "/playlists" w = (Raise e, w') →
       PlexServer.playlist self title w = (Raise e, w')).
Proof.
  unfold PlexServer.playlist, PlexServer.playlists. split; [|split].
  - intros before item after w' Hl Hbefore Hitem.
    rewrite (bind_Return _ _ _ _ _ Hl), (playlist_loop_skip _ _ _ _ Hbefore).
    simpl. by rewrite (bool_decide_eq_true_2 _ Hitem).
  - intros items w' Hl Hall. rewrite (bind_Return _ _ _ _ _ Hl).
    rewrite <- (app_nil_r items). by rewrite (playlist_loop_skip _ _ _ _ Hall).
  - intros e w' Hl. by apply bind_Raise.
Qed.

Lemma playlist_first_exact_match_witness :
  fst (@PlexServer.playlist sample_utils 0 "Dinner"
         (one_server None unreachable))
    = Return (item_of "Dinner" "playlist")
  ∧ fst (@PlexServer.playlist sample_utils 0 "dinner"
           (one_server None unreachable))
    = Raise (NotFound "Invalid playlist title: dinner").
Proof.
  split.
  - assert (Hbefore : Forall (λ i, Item.title i ≠ Some "Dinner")
                             [item_of "Road trip" "playlist"]).
    { repeat constructor. discriminate. }
    exact (f_equal fst (proj1 (@playlist_first_exact_match sample_utils
             (one_server None unreachable) 0 "Dinner")
             [item_of "Road trip" "playlist"] (item_of "Dinner" "playlist") []
             (one_server None unreachable) eq_refl Hbefore eq_refl)).
  - assert (Hall : Forall (λ i, Item.title i ≠ Some "dinner")
                          [item_of "Road trip" "playlist";
                           item_of "Dinner" "playlist"]).
    { repeat constructor; discriminate. }
    exact (f_equal fst (proj1 (proj2 (@playlist_first_exact_match sample_utils
             (one_server None unreachable) 0 "dinner"))
             [item_of "Road trip" "playlist"; item_of "Dinner" "playlist"]
             (one_server None unreachable) eq_refl Hall)).
Defined.

Lemma filter_kept_of_type (m : string) (items : list Item.t) :
  kept_of_type m items (filter (λ item, Item.type item = Some m) items).
Proof.
  induction items as [|item rest IH]; [constructor|].
  rewrite filter_cons. destruct (decide (Item.type item = Some m)).
  - by apply kept_keep.
  - by apply kept_drop.
Qed.

(** [kept_of_type] fixes the result: one listing has one selection. *)
Lemma kept_of_type_unique (m : string) (items found found' : list Item.t) :
  kept_of_type m items found → kept_of_type m items found' → found = found'.
Proof.
  intros Hk. revert found'.
  induction Hk as [|item rest found Hm _ IH|item rest found Hm _ IH];
    intros found' Hk'; inversion Hk'; subst; try done.
  - f_equal. by apply IH.
  - by apply IH.
Qed.

(** X21.  [search(query, mediatype)] lists [/search?query=<quoted
    query>].  Without a media type ([None] or empty) it returns the
    listing as it is; with one it goes through the listing once, keeps
    each item of that type and drops each other item, so that the
    result has the items of that type, each as often as the listing
    has it, in the order of the listing. *)
Theorem search_filters_in_order `{Utils} (w : World) (self : loc)
    (query : string) (mediatype : option string) (items : list Item.t)
    (w' : World) :
  listItems self ("/search?query=" +:+ quote query) w = (Return items, w') →
  (mediatype = None ∨ mediatype = Some "" →
   PlexServer.search self query mediatype w = (Return items, w'))
  ∧ (∀ m, mediatype = Some m → m ≠ "" →
     ∃ found,
       PlexServer.search self query mediatype w = (Return found, w')
       ∧ kept_of_type m items found
       ∧ found `sublist_of` items
       ∧ ∀ i, i ∈ found ↔ i ∈ items ∧ Item.type i = Some m).
Proof.
  intros Hl. unfold PlexServer.search. rewrite (bind_Return _ _ _ _ _ Hl).
  split.
  - intros Hno. apply truthy_false in Hno. by rewrite Hno.
  - intros m -> Hne. rewrite (truthy_Some _ Hne). eexists.
    split; [reflexivity|]. split; [apply filter_kept_of_type|].
    split; [apply sublist_filter|].
    intros i. rewrite list_elem_of_filter. tauto.
Qed.

Lemma search_filters_in_order_witness :
  @PlexServer.search sample_utils 0 "alien" None (one_server None unreachable)
    = (Return [item_of "Alien" "movie"; item_of "Alien theme" "track";
               item_of "Aliens" "movie"], one_server None unreachable)
  ∧ ∃ found,
      @PlexServer.search sample_utils 0 "alien" (Some "movie")
        (one_server None unreachable) = (Return found, one_server None unreachable)
      ∧ kept_of_type "movie"
          [item_of "Alien" "movie"; item_of "Alien theme" "track";
           item_of "Aliens" "movie"] found.
Proof.
  split.
  - exact (proj1 (@search_filters_in_order sample_utils
             (one_server None unreachable) 0 "alien" None
             [item_of "Alien" "movie"; item_of "Alien theme" "track";
              item_of "Aliens" "movie"]
             (one_server None unreachable) eq_refl) (or_introl eq_refl)).
  - assert (Hne : "movie" ≠ "") by discriminate.
    destruct (proj2 (@search_filters_in_order sample_utils
                (one_server None unreachable) 0 "alien" (Some "movie")
                [item_of "Alien" "movie"; item_of "Alien theme" "track";
                 item_of "Aliens" "movie"]
                (one_server None unreachable) eq_refl) "movie" eq_refl Hne)
      as (found & Hrun & Hkept & _).
    exists found. split; [exact Hrun|exact Hkept].
Defined.

(** The search for movies keeps the two movies, in their order. *)
Example search_movies :
  fst (@PlexServer.search sample_utils 0 "alien" (Some "movie")
         (one_server None unreachable))
  = Return [item_of "Alien" "movie"; item_of "Aliens" "movie"].
Proof. vm_compute. reflexivity. Qed.

(** ** A status the table does not name *)

(** X22.  For a status other than 200 and 201 that the status table of
    the requests library has no entry for, [codes.get(status)] is
    [None] and [query] raises [TypeError] on [None[0]], not
    [BadRequest]. *)
Theorem query_status_without_name `{Extern} (w : World) (self : loc)
    (s : Server.t) (path : string) (method : option Method)
    (headers : option (gmap string string)) (kwargs : gmap string string)
    (r : Response.t) :
  servers w !! self = Some s →
  collides kwargs = false →
  answer (default (Server.session_get s) method) (sent w)
         (request_of s (BASE_HEADERS w) path method headers kwargs) = Return r →
  Response.status_code r ≠ 200%Z →
  Response.status_code r ≠ 201%Z →
  codes !! Response.status_code r = None →
  fst (PlexServer.query self path method headers kwargs w) = Raise TypeError.
Proof.
  intros Hs Hk Ha H200 H201 Hc. rewrite (query_run _ _ _ _ _ _ _ Hs Hk), Ha.
  simpl. unfold classify. destruct (bool_decide _) eqn:Hd.
  - apply status_ok_iff in Hd. tauto.
  - simpl. by rewrite Hc.
Qed.

Lemma query_status_without_name_witness :
  fst (@PlexServer.query sample_extern 0 "/status" None None ∅
         (one_server None get_299)) = Raise TypeError.
Proof.
  assert (H200 : 299%Z ≠ 200%Z) by discriminate.
  assert (H201 : 299%Z ≠ 201%Z) by discriminate.
  exact (@query_status_without_name sample_extern (one_server None get_299) 0
           (plain_server None get_299) "/status" None None ∅
           (Response.mk 299 "Odd" "" "http://10.0.0.97:32400/status")
           eq_refl collides_empty eq_refl H200 H201 eq_refl).
Defined.

(** ** A keyword given twice *)

(** X23.  [query] passes [timeout=TIMEOUT] itself: when its extra
    keyword arguments hold a [timeout] too, the call of the method is a
    [TypeError] (keyword given twice), whatever the transport would
    have answered, and no request goes out. *)
Theorem query_repeated_timeout `{Extern} (w : World) (self : loc)
    (s : Server.t) (path : string) (method : option Method)
    (headers : option (gmap string string)) (kwargs : gmap string string) :
  servers w !! self = Some s →
  is_Some (kwargs !! "timeout") →
  fst (PlexServer.query self path method headers kwargs w) = Raise TypeError
  ∧ sent (snd (PlexServer.query self path method headers kwargs w)) = sent w.
Proof.
  intros Hs [v Hv].
  assert (Hk : collides kwargs = true).
  { unfold collides. rewrite Hv. by destruct (kwargs !! "headers"). }
  by rewrite (query_refused _ _ _ _ _ _ _ Hs Hk).
Qed.

Lemma query_repeated_timeout_witness :
  fst (@PlexServer.query sample_extern 0 "/status" None None
         {["timeout" := "5"]} (one_server None get_root)) = Raise TypeError
  ∧ sent (snd (@PlexServer.query sample_extern 0 "/status" None None
                 {["timeout" := "5"]} (one_server None get_root))) = [].
Proof.
  assert (Hsome : is_Some (({["timeout" := "5"]} : gmap string string)
                           !! "timeout")).
  { eexists; vm_compute; reflexivity. }
  exact (@query_repeated_timeout sample_extern (one_server None get_root) 0
           (plain_server None get_root) "/status" None None
           {["timeout" := "5"]} eq_refl Hsome).
Defined.
